(** * Portfolio-recommendation dialog handler (lambda_function.py)

    A shallow embedding of the Lex code hook: the helpers [parse_int] and
    [build_validation_result], the three response builders, the validator
    [validate_data], the intent handler [recommend_portfolio], the
    dispatcher [dispatch], the advice table [get_advice] and the entry
    point [lambda_handler].

    Modelling conventions.
    - A Python value that can sit in a slot is a [pyval]: [None], an
      integer or a string.  Floats are not modelled as slot values; the
      only float the program creates itself is the NaN of [parse_int],
      which is the second constructor of [number].
    - A string is a sequence of code points below 256, one [ascii] each.
    - Dictionaries whose key set is fixed by the code (the request, the
      responses, a message) are records; the slots dictionary, which the
      code indexes and updates by key, is a [gmap pyval pyval].
    - Exceptions are values of [pyerr]; a computation that can raise
      returns an [outcome].
    - The handler updates the slots dictionary of the request in place,
      so handler code runs in a state-and-exception monad [Py] whose
      store is the request object.
    - Module [Raw] embeds the handler, the dispatcher and the entry point
      a second time, over events in which the keys of the request may be
      missing; [raw_dispatch_of_request] shows that both agree on events
      that have all of them. *)

From Stdlib Require Import ZArith String Ascii List Bool.
From stdpp Require Import base decidable countable gmap strings.

Local Open Scope Z_scope.
Local Open Scope string_scope.

(** ** Python values and exceptions *)

Inductive pyval : Type :=
| PNone
| PInt (z : Z)
| PStr (s : string).

#[global] Instance pyval_eq_dec : EqDecision pyval.
Proof. solve_decision. Defined.

Definition pyval_code (v : pyval) : option (Z + string) :=
  match v with
  | PNone => None
  | PInt z => Some (inl z)
  | PStr s => Some (inr s)
  end.

Definition pyval_decode (c : option (Z + string)) : pyval :=
  match c with
  | None => PNone
  | Some (inl z) => PInt z
  | Some (inr s) => PStr s
  end.

#[global] Instance pyval_countable : Countable pyval.
Proof.
  refine (inj_countable' pyval_code pyval_decode _).
  intros []; reflexivity.
Defined.

Inductive pyerr : Type :=
| KeyError (key : pyval)
| ValueError
| TypeError
| Exception (msg : string).

Inductive outcome (A : Type) : Type :=
| Ok (a : A)
| Raise (e : pyerr).
Arguments Ok {A} a.
Arguments Raise {A} e.

Definition obind {A B : Type} (m : outcome A) (k : A -> outcome B) : outcome B :=
  match m with
  | Ok a => k a
  | Raise e => Raise e
  end.

Declare Scope outcome_scope.
Delimit Scope outcome_scope with outcome.
Notation "x <~ m ;; k" := (obind m (fun x => k))
  (at level 100, m at next level, right associativity) : outcome_scope.

(** ** The built-in [int] on strings

    [int(s)] for a string reads, in base ten: optional white space, an
    optional sign, decimal digits in which single underscores may
    separate digits, optional white space.  Anything else is a
    [ValueError].  White space is the characters 9 to 13 and 32 and, of
    the code points from 128 to 255, the two spaces 133 and 160.  (The
    interpreter's limit on the number of digits is not modelled.) *)

Definition is_space (c : ascii) : bool :=
  let n := nat_of_ascii c in
  ((9 <=? n)%nat && (n <=? 13)%nat) || (n =? 32)%nat
  || (n =? 133)%nat || (n =? 160)%nat.

Definition digit_value (c : ascii) : option Z :=
  let n := nat_of_ascii c in
  if ((48 <=? n)%nat && (n <=? 57)%nat)%bool
  then Some (Z.of_nat n - 48) else None.

Definition is_underscore (c : ascii) : bool := (nat_of_ascii c =? 95)%nat.

Fixpoint skip_spaces (s : string) : string :=
  match s with
  | String c rest => if is_space c then skip_spaces rest else s
  | EmptyString => s
  end.

(** [scan_digits prev_us acc s] consumes digits and single underscores;
    [prev_us] tells whether the previous character was an underscore.
    It returns the value read and the unread rest. *)
Fixpoint scan_digits (prev_us : bool) (acc : Z) (s : string) : option (Z * string) :=
  match s with
  | String c rest =>
      match digit_value c with
      | Some d => scan_digits false (10 * acc + d) rest
      | None =>
          if is_underscore c
          then (if prev_us then None else scan_digits true acc rest)
          else (if prev_us then None else Some (acc, s))
      end
  | EmptyString => if prev_us then None else Some (acc, s)
  end.

Definition scan_number (s : string) : option (Z * string) :=
  match s with
  | String c _ =>
      match digit_value c with
      | Some _ => scan_digits false 0 s
      | None => None
      end
  | EmptyString => None
  end.

Definition int_of_str (s : string) : option Z :=
  let s1 := skip_spaces s in
  let '(sign, s2) :=
    match s1 with
    | String "+" rest => (1, rest)
    | String "-" rest => (-1, rest)
    | _ => (1, s1)
    end in
  match scan_number s2 with
  | Some (n, rest) =>
      match skip_spaces rest with
      | EmptyString => Some (sign * n)
      | _ => None
      end
  | None => None
  end.

(** [int(n)] on a slot value. *)
Definition py_int (n : pyval) : outcome Z :=
  match n with
  | PInt z => Ok z
  | PStr s =>
      match int_of_str s with
      | Some z => Ok z
      | None => Raise ValueError
      end
  | PNone => Raise TypeError
  end.

(** ** Numbers: integers and the NaN float *)

Inductive number : Type :=
| NInt (z : Z)
| NaN.

(** [a < b] and [a > b]: every comparison with NaN is false. *)
Definition num_lt (a b : number) : bool :=
  match a, b with
  | NInt x, NInt y => (x <? y)%Z
  | _, _ => false
  end.

Definition num_gt (a b : number) : bool :=
  match a, b with
  | NInt x, NInt y => (x >? y)%Z
  | _, _ => false
  end.

(** ** Functionality helper functions *)

Definition parse_int (n : pyval) : outcome number :=
  match py_int n with
  | Ok z => Ok (NInt z)
  | Raise ValueError => Ok NaN
  | Raise e => Raise e
  end.

Record message_t : Type := {
  contentType : string;
  content : string
}.

(** The validation result dictionary; [vr_message = None] means that the
    key "message" is absent. *)
Record validation_result : Type := {
  isValid : bool;
  violatedSlot : pyval;
  vr_message : option message_t
}.

Definition build_validation_result
    (is_valid : bool) (violated_slot : pyval) (message_content : option string)
    : validation_result :=
  match message_content with
  | None =>
      {| isValid := is_valid; violatedSlot := violated_slot; vr_message := None |}
  | Some text =>
      {| isValid := is_valid;
         violatedSlot := violated_slot;
         vr_message := Some {| contentType := "PlainText"; content := text |} |}
  end.

(** ** Requests and responses *)

Record current_intent : Type := {
  name : string;
  slots : gmap pyval pyval
}.

Record intent_request : Type := {
  currentIntent : current_intent;
  invocationSource : string;
  sessionAttributes : option (gmap string string)
}.

Inductive dialog_action : Type :=
| ElicitSlot (intentName : string) (da_slots : gmap pyval pyval)
             (slotToElicit : pyval) (message : message_t)
| Delegate (da_slots : gmap pyval pyval)
| Close (fulfillmentState : string) (message : message_t).

Record response : Type := {
  resp_sessionAttributes : option (gmap string string);
  dialogAction : dialog_action
}.

(** The "type" entry of a dialogAction dictionary. *)
Definition da_type (d : dialog_action) : string :=
  match d with
  | ElicitSlot _ _ _ _ => "ElicitSlot"
  | Delegate _ => "Delegate"
  | Close _ _ => "Close"
  end.

(** ** Dialog actions helper functions *)

Definition elicit_slot (session_attributes : option (gmap string string))
    (intent_name : string) (slots : gmap pyval pyval)
    (slot_to_elicit : pyval) (message : message_t) : response :=
  {| resp_sessionAttributes := session_attributes;
     dialogAction := ElicitSlot intent_name slots slot_to_elicit message |}.

Definition delegate (session_attributes : option (gmap string string))
    (slots : gmap pyval pyval) : response :=
  {| resp_sessionAttributes := session_attributes;
     dialogAction := Delegate slots |}.

Definition close (session_attributes : option (gmap string string))
    (fulfillment_state : string) (message : message_t) : response :=
  {| resp_sessionAttributes := session_attributes;
     dialogAction := Close fulfillment_state message |}.

(** ** The validator *)

Definition age_message : string :=
  "You entered an age that does not fall within the age range for this utility. Please enter an age between 1 and 65.".

Definition investmentAmount_message : string :=
  "You must enter an investment amount greater than or equal to $5000.".

Definition riskLevel_message : string :=
  "You did not enter a valid risk level for this utility. Please enter either none or low or medium or high.".

(** Each [if] block of [validate_data] either returns a result
    ([Some r]) or falls through to the next block ([None]); the blocks
    are chained by [or_else]. *)
Definition or_else (block : outcome (option validation_result))
    (rest : outcome validation_result) : outcome validation_result :=
  match block with
  | Ok (Some r) => Ok r
  | Ok None => rest
  | Raise e => Raise e
  end.

Definition validate_data (age investmentAmount riskLevel : pyval)
    (intent_request : intent_request) : outcome validation_result :=
  or_else
    (if bool_decide (age <> PNone) then
       (age <~ parse_int age ;;
        below <~ (zero <~ parse_int (PInt 0) ;; Ok (num_lt age zero)) ;;
        out_of_range <~ (if below : bool then Ok true
                         else (top <~ parse_int (PInt 65) ;; Ok (num_gt age top))) ;;
        if out_of_range : bool
        then Ok (Some (build_validation_result false (PStr "age") (Some age_message)))
        else Ok None)%outcome
     else Ok None)
  (or_else
    (if bool_decide (investmentAmount <> PNone) then
       (investmentAmount <~ parse_int investmentAmount ;;
        minimum <~ py_int (PInt 5000) ;;
        if num_lt investmentAmount (NInt minimum)
        then Ok (Some (build_validation_result false (PStr "investmentAmount")
                         (Some investmentAmount_message)))
        else Ok None)%outcome
     else Ok None)
  (or_else
    (if bool_decide (riskLevel <> PNone) then
       if bool_decide (riskLevel <> PStr "none")
          && bool_decide (riskLevel <> PStr "low")
          && bool_decide (riskLevel <> PStr "medium")
          && bool_decide (riskLevel <> PStr "high")
       then Ok (Some (build_validation_result false (PStr "riskLevel")
                        (Some riskLevel_message)))
       else Ok None
     else Ok None)
  (Ok (build_validation_result true PNone None)))).

(** ** The advice table *)

Definition get_advice (risklevel : pyval) : string :=
  if bool_decide (risklevel = PStr "none") then
    "100% bonds (AGG), 0% equities (SPY)"
  else if bool_decide (risklevel = PStr "low") then
    "60% bonds (ACG), 40% equities (SPY)"
  else if bool_decide (risklevel = PStr "medium") then
    "40% bonds (ACG), 60% equities (SPY)"
  else
    "20% bonds (ACG), 80% equities (SPY)".

(** ** The handler monad

    The store is the request object that the handler was called with;
    [slots = get_slots(intent_request)] binds a reference to the slots
    dictionary inside it, so a write through [slots] is a write to the
    store, and a later read of [slots] sees it. *)

Definition Py (A : Type) : Type := intent_request -> outcome A * intent_request.

Definition ret {A : Type} (a : A) : Py A := fun st => (Ok a, st).

Definition raise {A : Type} (e : pyerr) : Py A := fun st => (Raise e, st).

Definition bind {A B : Type} (m : Py A) (k : A -> Py B) : Py B :=
  fun st =>
    match m st with
    | (Ok a, st') => k a st'
    | (Raise e, st') => (Raise e, st')
    end.

Definition lift {A : Type} (f : intent_request -> outcome A) : Py A :=
  fun st => (f st, st).

Declare Scope py_scope.
Delimit Scope py_scope with py.
Notation "x <- m ;; k" := (bind m (fun x => k))
  (at level 100, m at next level, right associativity) : py_scope.
Notation "m ;;; k" := (bind m (fun _ => k))
  (at level 100, right associativity) : py_scope.

(** [intent_request[...]] for the keys of the request. *)
Definition read {A : Type} (field : intent_request -> A) : Py A :=
  fun st => (Ok (field st), st).

(** [d[key]] on a dictionary value. *)
Definition getitem (d : gmap pyval pyval) (key : pyval) : Py pyval :=
  match d !! key with
  | Some v => ret v
  | None => raise (KeyError key)
  end.

(** [validation_result["message"]]. *)
Definition getitem_message (r : validation_result) : Py message_t :=
  match vr_message r with
  | Some m => ret m
  | None => raise (KeyError (PStr "message"))
  end.

Definition get_slots : Py (gmap pyval pyval) :=
  read (fun st => slots (currentIntent st)).

(** The request object after [slots[key] = value]. *)
Definition update_slot (key value : pyval) (st : intent_request) : intent_request :=
  {| currentIntent :=
       {| name := name (currentIntent st);
          slots := <[key := value]> (slots (currentIntent st)) |};
     invocationSource := invocationSource st;
     sessionAttributes := sessionAttributes st |}.

(** [slots[key] = value], through the reference into the request. *)
Definition setitem_slots (key value : pyval) : Py unit :=
  fun st => (Ok tt, update_slot key value st).

Definition newline : string := String (ascii_of_nat 10) EmptyString.

(** The template of the closing message with [advice] in place of the
    replacement field. *)
Definition format_advice (advice : string) : string :=
  "Based on your risk level, it is recommended that your portfolio should be "
  +:+ advice +:+ newline +:+ "            ".

(** ** Intent handler, dispatcher and entry point *)

Definition recommend_portfolio : Py response :=
  (firstname <- (d <- get_slots ;; getitem d (PStr "firstname")) ;;
   age <- (d <- get_slots ;; getitem d (PStr "age")) ;;
   investmentAmount <- (d <- get_slots ;; getitem d (PStr "investmentAmount")) ;;
   riskLevel <- (d <- get_slots ;; getitem d (PStr "riskLevel")) ;;
   source <- read invocationSource ;;
   if bool_decide (source = "DialogCodeHook") then
     validation_result <- lift (validate_data age investmentAmount riskLevel) ;;
     if negb (isValid validation_result) then
       setitem_slots (violatedSlot validation_result) PNone ;;;
       session_attributes <- read sessionAttributes ;;
       intent_name <- read (fun st => name (currentIntent st)) ;;
       slots <- get_slots ;;
       message <- getitem_message validation_result ;;
       ret (elicit_slot session_attributes intent_name slots
              (violatedSlot validation_result) message)
     else
       output_session_attributes <- read sessionAttributes ;;
       slots <- get_slots ;;
       ret (delegate output_session_attributes slots)
   else
     let invest_advice := get_advice riskLevel in
     session_attributes <- read sessionAttributes ;;
     ret (close session_attributes "Fulfilled"
            {| contentType := "PlainText";
               content := format_advice invest_advice |}))%py.

Definition dispatch : Py response :=
  (intent_name <- read (fun st => name (currentIntent st)) ;;
   if bool_decide (intent_name = "recommendPortfolio") then
     recommend_portfolio
   else
     raise (Exception ("Intent with name " +:+ intent_name +:+ " not supported")))%py.

Definition lambda_handler {Context : Type} (event : intent_request)
    (context : Context) : outcome response * intent_request :=
  dispatch event.

(** ** Named results and sample inputs *)

Definition valid_result : validation_result :=
  build_validation_result true PNone None.

Definition age_violation : validation_result :=
  build_validation_result false (PStr "age") (Some age_message).

Definition investmentAmount_violation : validation_result :=
  build_validation_result false (PStr "investmentAmount")
    (Some investmentAmount_message).

Definition riskLevel_violation : validation_result :=
  build_validation_result false (PStr "riskLevel") (Some riskLevel_message).

(** The outcome of a sequence of checks run in the given order: the
    first one that is not valid, and the success result when there is
    none. *)
Fixpoint first_violation (checks : list (outcome validation_result))
    : outcome validation_result :=
  match checks with
  | [] => Ok valid_result
  | Ok r :: rest => if isValid r then first_violation rest else Ok r
  | Raise e :: _ => Raise e
  end.

(** What each block of [validate_data] tests, as a boolean on the slot
    value alone. *)
Definition age_flagged (age : pyval) : bool :=
  match parse_int age with
  | Ok (NInt a) => (a <? 0)%Z || (a >? 65)%Z
  | _ => false
  end.

Definition investmentAmount_flagged (investmentAmount : pyval) : bool :=
  match parse_int investmentAmount with
  | Ok (NInt m) => (m <? 5000)%Z
  | _ => false
  end.

Definition riskLevel_flagged (riskLevel : pyval) : bool :=
  match riskLevel with
  | PNone => false
  | PInt _ => true
  | PStr s =>
      negb (bool_decide (s = "none") || bool_decide (s = "low")
            || bool_decide (s = "medium") || bool_decide (s = "high"))
  end.

Definition make_request (intent_name source : string)
    (session : option (gmap string string))
    (entries : list (pyval * pyval)) : intent_request :=
  {| currentIntent := {| name := intent_name; slots := list_to_map entries |};
     invocationSource := source;
     sessionAttributes := session |}.

Definition all_slots (firstname age investmentAmount riskLevel : pyval)
    : list (pyval * pyval) :=
  [ (PStr "firstname", firstname); (PStr "age", age);
    (PStr "investmentAmount", investmentAmount); (PStr "riskLevel", riskLevel) ].

Definition sample_session : option (gmap string string) :=
  Some {[ "channel" := "web" ]}.

(** A dialog-hook turn in which only the age has been given, and it is 70. *)
Definition request_age_70 : intent_request :=
  make_request "recommendPortfolio" "DialogCodeHook" sample_session
    (all_slots (PStr "Ada") (PStr "70") PNone PNone).

(** A dialog-hook turn with every slot filled with an acceptable value. *)
Definition request_all_valid : intent_request :=
  make_request "recommendPortfolio" "DialogCodeHook" sample_session
    (all_slots (PStr "Ada") (PStr "30") (PStr "10000") (PStr "medium")).

(** A fulfillment turn with risk level "low". *)
Definition request_fulfil_low : intent_request :=
  make_request "recommendPortfolio" "FulfillmentCodeHook" sample_session
    (all_slots (PStr "Ada") (PStr "30") (PStr "10000") (PStr "low")).

(** A fulfillment turn whose slots dictionary has no "firstname" entry. *)
Definition request_without_firstname : intent_request :=
  make_request "recommendPortfolio" "FulfillmentCodeHook" sample_session
    [ (PStr "age", PStr "30"); (PStr "investmentAmount", PStr "10000");
      (PStr "riskLevel", PStr "low") ].

(** A request for an intent that has no handler. *)
Definition request_unknown_intent : intent_request :=
  make_request "unknownIntent" "DialogCodeHook" sample_session
    (all_slots (PStr "Ada") (PStr "30") (PStr "10000") (PStr "low")).

(** The keys that the handler reads, in the order it reads them. *)
Definition slot_keys : list pyval :=
  [PStr "firstname"; PStr "age"; PStr "investmentAmount"; PStr "riskLevel"].

(** A dialog-hook turn whose age does not read as a number. *)
Definition request_age_abc : intent_request :=
  make_request "recommendPortfolio" "DialogCodeHook" sample_session
    (all_slots (PStr "Ada") (PStr "abc") PNone PNone).

(** A response with its slots dictionary (when it carries one)
    transformed by [f]. *)
Definition map_response_slots (f : gmap pyval pyval -> gmap pyval pyval)
    (r : response) : response :=
  {| resp_sessionAttributes := resp_sessionAttributes r;
     dialogAction :=
       match dialogAction r with
       | ElicitSlot n d k m => ElicitSlot n (f d) k m
       | Delegate d => Delegate (f d)
       | Close state m => Close state m
       end |}.

Definition map_outcome {A B : Type} (f : A -> B) (o : outcome A) : outcome B :=
  match o with
  | Ok a => Ok (f a)
  | Raise e => Raise e
  end.

(** Whether the block of [validate_data] with test [flag] would fire on
    the value stored under [key]; a missing key counts as not flagged. *)
Definition slot_flagged (flag : pyval -> bool) (d : gmap pyval pyval)
    (key : pyval) : bool :=
  match d !! key with
  | Some v => flag v
  | None => false
  end.

(** The number of slots of a dictionary that the validator objects to. *)
Definition offending (d : gmap pyval pyval) : nat :=
  Nat.b2n (slot_flagged age_flagged d (PStr "age"))
  + Nat.b2n (slot_flagged investmentAmount_flagged d (PStr "investmentAmount"))
  + Nat.b2n (slot_flagged riskLevel_flagged d (PStr "riskLevel")).

(** The slot that an outcome asks the platform to elicit, if any. *)
Definition elicited (o : outcome response) : option pyval :=
  match o with
  | Ok r =>
      match dialogAction r with
      | ElicitSlot _ _ k _ => Some k
      | _ => None
      end
  | Raise _ => None
  end.

(** The request object after [n] successive calls of the handler on it. *)
Fixpoint after_turns (n : nat) (req : intent_request) : intent_request :=
  match n with
  | O => req
  | S n' => after_turns n' (snd (recommend_portfolio req))
  end.

(** A dialog-hook turn in which no slot holds an acceptable value. *)
Definition request_three_bad : intent_request :=
  make_request "recommendPortfolio" "DialogCodeHook" sample_session
    (all_slots (PStr "Ada") (PStr "70") (PStr "100") (PStr "bogus")).

(** ** Events with missing keys

    The record [intent_request] describes an event that holds every key
    that the code looks up outside the slots dictionary.  The entry point
    gets whatever the platform sends.  Module [Raw] embeds the same
    functions over events in which each of the keys "currentIntent",
    "name", "slots", "invocationSource" and "sessionAttributes" may be
    missing, so that every subscript of the source can raise its
    [KeyError].  A key that is present holds a value of the kind that
    the request format gives it: a string for the intent name and for
    the invocation source, a dictionary for the current intent and for
    the slots, null or a dictionary for the session attributes. *)
Module Raw.

Record intent : Type := {
  name : option string;
  slots : option (gmap pyval pyval)
}.

Record event : Type := {
  currentIntent : option intent;
  invocationSource : option string;
  sessionAttributes : option (option (gmap string string))
}.

(** The handler monad over events. *)
Definition M (A : Type) : Type := event -> outcome A * event.

Definition ret {A : Type} (a : A) : M A := fun st => (Ok a, st).

Definition raise {A : Type} (e : pyerr) : M A := fun st => (Raise e, st).

Definition bind {A B : Type} (m : M A) (k : A -> M B) : M B :=
  fun st =>
    match m st with
    | (Ok a, st') => k a st'
    | (Raise e, st') => (Raise e, st')
    end.

Definition lift {A : Type} (f : event -> outcome A) : M A :=
  fun st => (f st, st).

Declare Scope raw_scope.
Delimit Scope raw_scope with raw.
Notation "x <- m ;; k" := (bind m (fun x => k))
  (at level 100, m at next level, right associativity) : raw_scope.
Notation "m ;;; k" := (bind m (fun _ => k))
  (at level 100, right associativity) : raw_scope.

(** [d[key]] where [entry] is what the dictionary holds under [key]. *)
Definition subscript {A : Type} (entry : option A) (key : string) : M A :=
  match entry with
  | Some a => ret a
  | None => raise (KeyError (PStr key))
  end.

(** [intent_request[key]] for a key of the event itself. *)
Definition event_item {A : Type} (field : event -> option A) (key : string)
    : M A :=
  fun st => subscript (field st) key st.

(** [d[key]] on a slots dictionary. *)
Definition getitem (d : gmap pyval pyval) (key : pyval) : M pyval :=
  match d !! key with
  | Some v => ret v
  | None => raise (KeyError key)
  end.

(** [validation_result["message"]]. *)
Definition getitem_message (r : validation_result) : M message_t :=
  match vr_message r with
  | Some m => ret m
  | None => raise (KeyError (PStr "message"))
  end.

Definition get_slots : M (gmap pyval pyval) :=
  (current <- event_item currentIntent "currentIntent" ;;
   subscript (slots current) "slots")%raw.

(** The slots dictionary of an event, when it has one. *)
Definition slots_of (st : event) : option (gmap pyval pyval) :=
  match currentIntent st with
  | Some current => slots current
  | None => None
  end.

(** The intent name of an event, when it has one. *)
Definition name_of (st : event) : option string :=
  match currentIntent st with
  | Some current => name current
  | None => None
  end.

(** The event after [slots[key] = value], where [slots] is the
    dictionary that [get_slots] returned. *)
Definition update_slot (key value : pyval) (st : event) : event :=
  {| currentIntent :=
       match currentIntent st with
       | Some current =>
           Some {| name := name current;
                   slots := match slots current with
                            | Some d => Some (<[key := value]> d)
                            | None => None
                            end |}
       | None => None
       end;
     invocationSource := invocationSource st;
     sessionAttributes := sessionAttributes st |}.

Definition setitem_slots (key value : pyval) : M unit :=
  fun st => (Ok tt, update_slot key value st).

Definition validate_data (age investmentAmount riskLevel : pyval)
    (intent_request : event) : outcome validation_result :=
  or_else
    (if bool_decide (age <> PNone) then
       (age <~ parse_int age ;;
        below <~ (zero <~ parse_int (PInt 0) ;; Ok (num_lt age zero)) ;;
        out_of_range <~ (if below : bool then Ok true
                         else (top <~ parse_int (PInt 65) ;; Ok (num_gt age top))) ;;
        if out_of_range : bool
        then Ok (Some (build_validation_result false (PStr "age") (Some age_message)))
        else Ok None)%outcome
     else Ok None)
  (or_else
    (if bool_decide (investmentAmount <> PNone) then
       (investmentAmount <~ parse_int investmentAmount ;;
        minimum <~ py_int (PInt 5000) ;;
        if num_lt investmentAmount (NInt minimum)
        then Ok (Some (build_validation_result false (PStr "investmentAmount")
                         (Some investmentAmount_message)))
        else Ok None)%outcome
     else Ok None)
  (or_else
    (if bool_decide (riskLevel <> PNone) then
       if bool_decide (riskLevel <> PStr "none")
          && bool_decide (riskLevel <> PStr "low")
          && bool_decide (riskLevel <> PStr "medium")
          && bool_decide (riskLevel <> PStr "high")
       then Ok (Some (build_validation_result false (PStr "riskLevel")
                        (Some riskLevel_message)))
       else Ok None
     else Ok None)
  (Ok (build_validation_result true PNone None)))).

Definition recommend_portfolio : M response :=
  (firstname <- (d <- get_slots ;; getitem d (PStr "firstname")) ;;
   age <- (d <- get_slots ;; getitem d (PStr "age")) ;;
   investmentAmount <- (d <- get_slots ;; getitem d (PStr "investmentAmount")) ;;
   riskLevel <- (d <- get_slots ;; getitem d (PStr "riskLevel")) ;;
   source <- event_item invocationSource "invocationSource" ;;
   if bool_decide (source = "DialogCodeHook") then
     get_slots ;;;
     validation_result <- lift (validate_data age investmentAmount riskLevel) ;;
     if negb (isValid validation_result) then
       setitem_slots (violatedSlot validation_result) PNone ;;;
       session_attributes <- event_item sessionAttributes "sessionAttributes" ;;
       intent_name <- (current <- event_item currentIntent "currentIntent" ;;
                       subscript (name current) "name") ;;
       slots <- get_slots ;;
       message <- getitem_message validation_result ;;
       ret (elicit_slot session_attributes intent_name slots
              (violatedSlot validation_result) message)
     else
       output_session_attributes <-
         event_item sessionAttributes "sessionAttributes" ;;
       slots <- get_slots ;;
       ret (delegate output_session_attributes slots)
   else
     let invest_advice := get_advice riskLevel in
     session_attributes <- event_item sessionAttributes "sessionAttributes" ;;
     ret (close session_attributes "Fulfilled"
            {| contentType := "PlainText";
               content := format_advice invest_advice |}))%raw.

Definition dispatch : M response :=
  (intent_name <- (current <- event_item currentIntent "currentIntent" ;;
                   subscript (name current) "name") ;;
   if bool_decide (intent_name = "recommendPortfolio") then
     recommend_portfolio
   else
     raise (Exception ("Intent with name " +:+ intent_name +:+ " not supported")))%raw.

Definition lambda_handler {Context : Type}
    : event -> Context -> outcome response * event :=
  fun event context => dispatch event.

End Raw.

(** An event that has all the keys, as a raw event. *)
Definition of_request (req : intent_request) : Raw.event :=
  {| Raw.currentIntent :=
       Some {| Raw.name := Some (name (currentIntent req));
               Raw.slots := Some (slots (currentIntent req)) |};
     Raw.invocationSource := Some (invocationSource req);
     Raw.sessionAttributes := Some (sessionAttributes req) |}.

(** The event names the intent "recommendPortfolio" and its slots
    dictionary [d] has the four keys that the handler reads: the handler
    gets as far as looking at the invocation source. *)
Definition reads_all_slots (ev : Raw.event) (current : Raw.intent)
    (d : gmap pyval pyval) : Prop :=
  Raw.currentIntent ev = Some current /\
  Raw.name current = Some "recommendPortfolio" /\
  Raw.slots current = Some d /\
  forall k, In k slot_keys -> is_Some (d !! k).

(** The event of a dialog-hook turn with age 70 and no "sessionAttributes"
    key. *)
Definition event_age_70_no_session : Raw.event :=
  {| Raw.currentIntent :=
       Some {| Raw.name := Some "recommendPortfolio";
               Raw.slots := Some (list_to_map
                 (all_slots (PStr "Ada") (PStr "70") PNone PNone)) |};
     Raw.invocationSource := Some "DialogCodeHook";
     Raw.sessionAttributes := None |}.

(** * Properties *)

(** ** Parsing and comparisons *)

Example int_of_str_samples :
  int_of_str "30" = Some 30 /\ int_of_str " 42 " = Some 42 /\
  int_of_str "+7" = Some 7 /\ int_of_str "-5" = Some (-5) /\
  int_of_str "1_000" = Some 1000 /\ int_of_str "007" = Some 7 /\
  int_of_str "3.5" = None /\ int_of_str "" = None /\
  int_of_str "abc" = None /\ int_of_str "5_" = None /\
  int_of_str "- 5" = None /\ int_of_str "12 3" = None.
Proof. repeat split; reflexivity. Qed.

Lemma num_lt_NaN_l (x : number) : num_lt NaN x = false.
Proof. reflexivity. Qed.

Lemma num_lt_NaN_r (x : number) : num_lt x NaN = false.
Proof. destruct x; reflexivity. Qed.

Lemma num_gt_NaN_l (x : number) : num_gt NaN x = false.
Proof. reflexivity. Qed.

Lemma num_gt_NaN_r (x : number) : num_gt x NaN = false.
Proof. destruct x; reflexivity. Qed.

Lemma parse_int_PInt (z : Z) : parse_int (PInt z) = Ok (NInt z).
Proof. reflexivity. Qed.

Lemma parse_int_PStr (s : string) :
  parse_int (PStr s) =
  match int_of_str s with Some z => Ok (NInt z) | None => Ok NaN end.
Proof. unfold parse_int; simpl. destruct (int_of_str s); reflexivity. Qed.

Lemma parse_int_present (v : pyval) (n : number) :
  parse_int v = Ok n -> v <> PNone.
Proof. destruct v; simpl; intros H; discriminate. Qed.

(** [parse_int] raises only on [None], which [validate_data] never passes. *)
Lemma parse_int_total (v : pyval) :
  v <> PNone -> exists n, parse_int v = Ok n.
Proof.
  destruct v as [|z|s]; intros Hv.
  - congruence.
  - eexists; apply parse_int_PInt.
  - rewrite parse_int_PStr. destruct (int_of_str s); eexists; reflexivity.
Qed.

(** ** The validator in closed form *)

Lemma riskLevel_block (riskLevel : pyval) :
  (bool_decide (riskLevel <> PNone)
   && (bool_decide (riskLevel <> PStr "none")
       && bool_decide (riskLevel <> PStr "low")
       && bool_decide (riskLevel <> PStr "medium")
       && bool_decide (riskLevel <> PStr "high")))%bool
  = riskLevel_flagged riskLevel.
Proof.
  destruct riskLevel as [|z|s]; [reflexivity | reflexivity |].
  unfold riskLevel_flagged.
  rewrite bool_decide_true by discriminate. simpl.
  repeat case_bool_decide; simpl; try reflexivity; congruence.
Qed.

Lemma validate_data_closed_form (age investmentAmount riskLevel : pyval)
    (req : intent_request) :
  validate_data age investmentAmount riskLevel req =
  Ok (if age_flagged age then age_violation
      else if investmentAmount_flagged investmentAmount
           then investmentAmount_violation
      else if riskLevel_flagged riskLevel then riskLevel_violation
      else valid_result).
Proof.
  unfold validate_data.
  assert (Hrisk :
    or_else
      (if bool_decide (riskLevel <> PNone) then
         if bool_decide (riskLevel <> PStr "none")
            && bool_decide (riskLevel <> PStr "low")
            && bool_decide (riskLevel <> PStr "medium")
            && bool_decide (riskLevel <> PStr "high")
         then Ok (Some (build_validation_result false (PStr "riskLevel")
                          (Some riskLevel_message)))
         else Ok None
       else Ok None)
      (Ok (build_validation_result true PNone None))
    = Ok (if riskLevel_flagged riskLevel then riskLevel_violation
          else valid_result)).
  { rewrite <- riskLevel_block.
    destruct (bool_decide (riskLevel <> PNone)); simpl; [|reflexivity].
    destruct (_ && _ && _ && _)%bool; reflexivity. }
  rewrite Hrisk. clear Hrisk.
  assert (Hamt : forall rest,
    or_else
      (if bool_decide (investmentAmount <> PNone) then
         (investmentAmount <~ parse_int investmentAmount ;;
          minimum <~ py_int (PInt 5000) ;;
          if num_lt investmentAmount (NInt minimum)
          then Ok (Some (build_validation_result false (PStr "investmentAmount")
                           (Some investmentAmount_message)))
          else Ok None)%outcome
       else Ok None) (Ok rest)
    = Ok (if investmentAmount_flagged investmentAmount
          then investmentAmount_violation else rest)).
  { intros rest. unfold investmentAmount_flagged.
    destruct investmentAmount as [|z|s]; [reflexivity | |].
    - simpl. destruct (z <? 5000)%Z; reflexivity.
    - rewrite bool_decide_true by discriminate.
      rewrite parse_int_PStr. destruct (int_of_str s) as [z|]; simpl;
        [destruct (z <? 5000)%Z|]; reflexivity. }
  rewrite Hamt. clear Hamt.
  unfold age_flagged.
  destruct age as [|z|s]; [reflexivity | |].
  - simpl. destruct (z <? 0)%Z; simpl; [reflexivity|].
    destruct (z >? 65)%Z; reflexivity.
  - rewrite bool_decide_true by discriminate.
    rewrite parse_int_PStr. destruct (int_of_str s) as [z|]; simpl;
      [|reflexivity].
    destruct (z <? 0)%Z; simpl; [reflexivity|].
    destruct (z >? 65)%Z; reflexivity.
Qed.

Lemma validate_data_request_irrelevant (age investmentAmount riskLevel : pyval)
    (req req' : intent_request) :
  validate_data age investmentAmount riskLevel req =
  validate_data age investmentAmount riskLevel req'.
Proof. rewrite !validate_data_closed_form. reflexivity. Qed.

Lemma age_flagged_None : age_flagged PNone = false.
Proof. reflexivity. Qed.

Lemma investmentAmount_flagged_None : investmentAmount_flagged PNone = false.
Proof. reflexivity. Qed.

Lemma riskLevel_flagged_None : riskLevel_flagged PNone = false.
Proof. reflexivity. Qed.

Lemma age_flagged_parsed (age : pyval) (a : Z) :
  parse_int age = Ok (NInt a) -> age_flagged age = ((a <? 0)%Z || (a >? 65)%Z)%bool.
Proof. unfold age_flagged. intros ->. reflexivity. Qed.

Lemma investmentAmount_flagged_parsed (amount : pyval) (m : Z) :
  parse_int amount = Ok (NInt m) -> investmentAmount_flagged amount = (m <? 5000)%Z.
Proof. unfold investmentAmount_flagged. intros ->. reflexivity. Qed.

Lemma age_flagged_NaN (age : pyval) :
  parse_int age = Ok NaN -> age_flagged age = false.
Proof. unfold age_flagged. intros ->. reflexivity. Qed.

Lemma investmentAmount_flagged_NaN (amount : pyval) :
  parse_int amount = Ok NaN -> investmentAmount_flagged amount = false.
Proof. unfold investmentAmount_flagged. intros ->. reflexivity. Qed.

Lemma riskLevel_flagged_PStr (s : string) :
  riskLevel_flagged (PStr s) = false <->
  s = "none" \/ s = "low" \/ s = "medium" \/ s = "high".
Proof.
  unfold riskLevel_flagged. rewrite negb_false_iff, !orb_true_iff.
  rewrite !bool_decide_eq_true. tauto.
Qed.

(** A slot checked on its own (the two others absent) is valid exactly
    when its block does not flag it. *)
Lemma age_alone (age : pyval) (req : intent_request) :
  validate_data age PNone PNone req =
  Ok (if age_flagged age then age_violation else valid_result).
Proof. rewrite validate_data_closed_form. reflexivity. Qed.

Lemma investmentAmount_alone (amount : pyval) (req : intent_request) :
  validate_data PNone amount PNone req =
  Ok (if investmentAmount_flagged amount then investmentAmount_violation
      else valid_result).
Proof. rewrite validate_data_closed_form. reflexivity. Qed.

Lemma riskLevel_alone (riskLevel : pyval) (req : intent_request) :
  validate_data PNone PNone riskLevel req =
  Ok (if riskLevel_flagged riskLevel then riskLevel_violation else valid_result).
Proof. rewrite validate_data_closed_form. reflexivity. Qed.

Lemma age_alone_valid (age : pyval) (req : intent_request) :
  validate_data age PNone PNone req = Ok valid_result <-> age_flagged age = false.
Proof.
  rewrite age_alone. destruct (age_flagged age); split; intros H;
    first [reflexivity | discriminate].
Qed.

Lemma investmentAmount_alone_valid (amount : pyval) (req : intent_request) :
  validate_data PNone amount PNone req = Ok valid_result <->
  investmentAmount_flagged amount = false.
Proof.
  rewrite investmentAmount_alone.
  destruct (investmentAmount_flagged amount); split; intros H;
    first [reflexivity | discriminate].
Qed.

Lemma riskLevel_alone_valid (riskLevel : pyval) (req : intent_request) :
  validate_data PNone PNone riskLevel req = Ok valid_result <->
  riskLevel_flagged riskLevel = false.
Proof.
  rewrite riskLevel_alone. destruct (riskLevel_flagged riskLevel); split;
    intros H; first [reflexivity | discriminate].
Qed.

(** The checks that precede a slot's own check pass. *)
Lemma earlier_checks_pass (age investmentAmount : pyval) (req : intent_request) :
  validate_data age investmentAmount PNone req = Ok valid_result <->
  age_flagged age = false /\ investmentAmount_flagged investmentAmount = false.
Proof.
  rewrite validate_data_closed_form.
  destruct (age_flagged age), (investmentAmount_flagged investmentAmount);
    simpl; split; intros H; try discriminate; try (destruct H; discriminate);
    auto.
Qed.

(** ** The handler, step by step *)

Section Handler.

Variable req : intent_request.

(** The four reads at the top of the handler fail at the first key
    that the slots dictionary lacks. *)
Lemma recommend_portfolio_no_firstname :
  slots (currentIntent req) !! PStr "firstname" = None ->
  recommend_portfolio req = (Raise (KeyError (PStr "firstname")), req).
Proof.
  intros H. unfold recommend_portfolio, bind, get_slots, read, getitem.
  rewrite H. reflexivity.
Qed.

Lemma recommend_portfolio_no_age (firstname : pyval) :
  slots (currentIntent req) !! PStr "firstname" = Some firstname ->
  slots (currentIntent req) !! PStr "age" = None ->
  recommend_portfolio req = (Raise (KeyError (PStr "age")), req).
Proof.
  intros H1 H2.
  unfold recommend_portfolio, bind, get_slots, read, getitem.
  rewrite H1. cbn. rewrite H2. reflexivity.
Qed.

Lemma recommend_portfolio_no_investmentAmount (firstname age : pyval) :
  slots (currentIntent req) !! PStr "firstname" = Some firstname ->
  slots (currentIntent req) !! PStr "age" = Some age ->
  slots (currentIntent req) !! PStr "investmentAmount" = None ->
  recommend_portfolio req = (Raise (KeyError (PStr "investmentAmount")), req).
Proof.
  intros H1 H2 H3.
  unfold recommend_portfolio, bind, get_slots, read, getitem.
  rewrite H1. cbn. rewrite H2. cbn. rewrite H3. reflexivity.
Qed.

Lemma recommend_portfolio_no_riskLevel (firstname age investmentAmount : pyval) :
  slots (currentIntent req) !! PStr "firstname" = Some firstname ->
  slots (currentIntent req) !! PStr "age" = Some age ->
  slots (currentIntent req) !! PStr "investmentAmount" = Some investmentAmount ->
  slots (currentIntent req) !! PStr "riskLevel" = None ->
  recommend_portfolio req = (Raise (KeyError (PStr "riskLevel")), req).
Proof.
  intros H1 H2 H3 H4.
  unfold recommend_portfolio, bind, get_slots, read, getitem.
  rewrite H1. cbn. rewrite H2. cbn. rewrite H3. cbn. rewrite H4. reflexivity.
Qed.

(** With the four keys present the handler is a case distinction on
    the invocation source and on the validation result. *)
Lemma recommend_portfolio_present (firstname age investmentAmount riskLevel : pyval) :
  slots (currentIntent req) !! PStr "firstname" = Some firstname ->
  slots (currentIntent req) !! PStr "age" = Some age ->
  slots (currentIntent req) !! PStr "investmentAmount" = Some investmentAmount ->
  slots (currentIntent req) !! PStr "riskLevel" = Some riskLevel ->
  recommend_portfolio req =
  if bool_decide (invocationSource req = "DialogCodeHook") then
    match validate_data age investmentAmount riskLevel req with
    | Ok r =>
        if isValid r then (Ok (delegate (sessionAttributes req) (slots (currentIntent req))), req)
        else
          match vr_message r with
          | Some m =>
              (Ok (elicit_slot (sessionAttributes req) (name (currentIntent req))
                     (<[violatedSlot r := PNone]> (slots (currentIntent req))) (violatedSlot r) m),
               update_slot (violatedSlot r) PNone req)
          | None =>
              (Raise (KeyError (PStr "message")),
               update_slot (violatedSlot r) PNone req)
          end
    | Raise e => (Raise e, req)
    end
  else
    (Ok (close (sessionAttributes req) "Fulfilled"
           {| contentType := "PlainText";
              content := format_advice (get_advice riskLevel) |}), req).
Proof.
  intros H1 H2 H3 H4.
  unfold recommend_portfolio, bind, get_slots, read, getitem.
  rewrite H1. cbn. rewrite H2. cbn. rewrite H3. cbn. rewrite H4. cbn.
  destruct (bool_decide (invocationSource req = "DialogCodeHook")); [|reflexivity].
  unfold lift.
  destruct (validate_data age investmentAmount riskLevel req) as [r|e];
    [|reflexivity].
  destruct (isValid r); cbn; [reflexivity|].
  unfold getitem_message. destruct (vr_message r); reflexivity.
Qed.

End Handler.

(** An invalid result of the validator always names one of the three
    validated slots and carries a message. *)
Lemma validate_data_invalid (age investmentAmount riskLevel : pyval)
    (req : intent_request) (r : validation_result) :
  validate_data age investmentAmount riskLevel req = Ok r ->
  isValid r = false ->
  r = age_violation \/ r = investmentAmount_violation \/ r = riskLevel_violation.
Proof.
  rewrite validate_data_closed_form. intros [= <-].
  destruct (age_flagged age); [auto|].
  destruct (investmentAmount_flagged investmentAmount); [auto|].
  destruct (riskLevel_flagged riskLevel); [auto|].
  simpl. discriminate.
Qed.

Lemma validate_data_total (age investmentAmount riskLevel : pyval)
    (req : intent_request) :
  exists r, validate_data age investmentAmount riskLevel req = Ok r.
Proof. rewrite validate_data_closed_form. eexists; reflexivity. Qed.

(** * The claims *)

(** ** Unparsable numbers *)

(** How the defect arises.  When the string in the age slot or in the
    investmentAmount slot does not read as an integer, [parse_int] turns
    it into NaN; every comparison with NaN is false, so the tests
    [age < 0], [age > 65] and [investmentAmount < 5000], which are meant
    to catch the values that are not valid, do not fire, and the value is
    let through like an absent one. *)
Theorem unparsable_number_skips_range_check (s : string) :
  int_of_str s = None ->
  parse_int (PStr s) = Ok NaN /\
  (forall x : number,
     num_lt NaN x = false /\ num_gt NaN x = false /\
     num_lt x NaN = false /\ num_gt x NaN = false) /\
  (forall investmentAmount riskLevel req,
     validate_data (PStr s) investmentAmount riskLevel req =
     validate_data PNone investmentAmount riskLevel req) /\
  (forall age riskLevel req,
     validate_data age (PStr s) riskLevel req =
     validate_data age PNone riskLevel req) /\
  (forall req,
     validate_data (PStr s) PNone PNone req = Ok valid_result /\
     validate_data PNone (PStr s) PNone req = Ok valid_result).
Proof.
  intros Hs.
  assert (Hnan : parse_int (PStr s) = Ok NaN)
    by (rewrite parse_int_PStr, Hs; reflexivity).
  split; [exact Hnan|]. split.
  { intros x. rewrite num_lt_NaN_r, num_gt_NaN_r. auto. }
  split.
  { intros amount risk req. rewrite !validate_data_closed_form.
    rewrite (age_flagged_NaN _ Hnan), age_flagged_None. reflexivity. }
  split.
  { intros age risk req. rewrite !validate_data_closed_form.
    rewrite (investmentAmount_flagged_NaN _ Hnan), investmentAmount_flagged_None.
    reflexivity. }
  intros req. rewrite age_alone, investmentAmount_alone.
  rewrite (age_flagged_NaN _ Hnan), (investmentAmount_flagged_NaN _ Hnan).
  split; reflexivity.
Qed.

Lemma unparsable_number_skips_range_check_witness :
  int_of_str "3.5" = None /\
  validate_data (PStr "3.5") PNone PNone request_age_abc = Ok valid_result.
Proof.
  split; [reflexivity|].
  exact (proj1 (proj2 (proj2 (proj2 (proj2
    (unparsable_number_skips_range_check "3.5" eq_refl)))) request_age_abc)).
Defined.

(** C1.  An age or investment amount that does not read as an integer
    has to be answered with the violation of its slot; the comments of
    [validate_data] ask for an age "greater than zero, but less than 66"
    and an amount "greater than or equal to $5000", and the handler is to
    re-prompt when "the data provided by the user is not valid".  The
    code does not: for the age "abc" the validator returns the success
    result and not the age violation, and the handler answers the
    dialog-hook turn with Delegate; likewise for the investment amount
    "abc". *)
Lemma unparsable_number_is_not_flagged :
  int_of_str "abc" = None /\
  validate_data (PStr "abc") PNone PNone request_age_abc = Ok valid_result /\
  validate_data (PStr "abc") PNone PNone request_age_abc <> Ok age_violation /\
  validate_data PNone (PStr "abc") PNone request_age_abc = Ok valid_result /\
  validate_data PNone (PStr "abc") PNone request_age_abc
    <> Ok investmentAmount_violation /\
  fst (recommend_portfolio request_age_abc) =
    Ok (delegate sample_session (slots (currentIntent request_age_abc))).
Proof.
  split; [reflexivity|].
  split; [reflexivity|].
  split; [discriminate|].
  split; [reflexivity|].
  split; [discriminate|].
  vm_compute. reflexivity.
Qed.

(** ** The advice table *)

(** C2.  [get_advice] maps "none", "low" and "medium" to their three
    fixed texts and every other value, "high" included, to the text of
    the fallback branch; so "high" and any unrecognised value get the
    same advice. *)
Theorem get_advice_table :
  get_advice (PStr "none") = "100% bonds (AGG), 0% equities (SPY)" /\
  get_advice (PStr "low") = "60% bonds (ACG), 40% equities (SPY)" /\
  get_advice (PStr "medium") = "40% bonds (ACG), 60% equities (SPY)" /\
  get_advice (PStr "high") = "20% bonds (ACG), 80% equities (SPY)" /\
  (forall v : pyval,
     v <> PStr "none" -> v <> PStr "low" -> v <> PStr "medium" ->
     get_advice v = "20% bonds (ACG), 80% equities (SPY)" /\
     get_advice (PStr "high") = get_advice v).
Proof.
  repeat (split; [reflexivity|]).
  intros v H1 H2 H3. unfold get_advice.
  rewrite !bool_decide_false by assumption. split; reflexivity.
Qed.

Lemma get_advice_table_witness :
  get_advice (PStr "high") = get_advice (PStr "anything-else").
Proof.
  refine (proj2 (proj2 (proj2 (proj2 (proj2 get_advice_table)))
            (PStr "anything-else") _ _ _)); discriminate.
Defined.

(** ** The three range checks *)

(** C5.  An age that reads as the integer [a] passes the validator
    exactly when [0 <= a <= 65], both ends included: in that range the
    validator goes on as if the age were absent, and outside it the
    validator returns the violation of slot "age" with the fixed message,
    whose text asks for an age between 1 and 65. *)
Theorem age_check_is_0_to_65 (age : pyval) (a : Z) (req : intent_request) :
  parse_int age = Ok (NInt a) ->
  (validate_data age PNone PNone req = Ok valid_result <-> 0 <= a <= 65) /\
  (0 <= a <= 65 ->
   forall investmentAmount riskLevel,
     validate_data age investmentAmount riskLevel req =
     validate_data PNone investmentAmount riskLevel req) /\
  (a < 0 \/ a > 65 ->
   forall investmentAmount riskLevel,
     validate_data age investmentAmount riskLevel req = Ok age_violation) /\
  age_violation =
    {| isValid := false;
       violatedSlot := PStr "age";
       vr_message := Some {| contentType := "PlainText"; content := age_message |} |} /\
  String.index 0 "between 1 and 65" age_message <> None.
Proof.
  intros Hparse.
  pose proof (age_flagged_parsed _ _ Hparse) as Hflag.
  split.
  { rewrite age_alone_valid, Hflag, orb_false_iff.
    rewrite Z.ltb_ge, Z.gtb_ltb, Z.ltb_ge. tauto. }
  split.
  { intros Hin amount risk. rewrite !validate_data_closed_form.
    rewrite Hflag, age_flagged_None.
    replace (a <? 0)%Z with false by (symmetry; apply Z.ltb_ge; lia).
    replace (a >? 65)%Z with false
      by (symmetry; rewrite Z.gtb_ltb; apply Z.ltb_ge; lia).
    reflexivity. }
  split.
  { intros Hout amount risk. rewrite validate_data_closed_form, Hflag.
    replace ((a <? 0)%Z || (a >? 65)%Z)%bool with true; [reflexivity|].
    symmetry. apply orb_true_iff. rewrite Z.ltb_lt, Z.gtb_ltb, Z.ltb_lt. lia. }
  split; [reflexivity|].
  vm_compute. discriminate.
Qed.

Lemma age_check_is_0_to_65_witness :
  parse_int (PStr "65") = Ok (NInt 65) /\
  validate_data (PStr "65") PNone PNone request_all_valid = Ok valid_result /\
  validate_data (PStr "66") (PStr "10000") (PStr "low") request_all_valid
    = Ok age_violation.
Proof.
  split; [reflexivity|]. split.
  - apply (proj1 (age_check_is_0_to_65 (PStr "65") 65 request_all_valid eq_refl)).
    lia.
  - apply (proj1 (proj2 (proj2
      (age_check_is_0_to_65 (PStr "66") 66 request_all_valid eq_refl)))).
    lia.
Defined.

(** C6.  An investment amount that reads as the integer [m] passes the
    validator exactly when [m >= 5000]: from 5000 on the validator goes
    on as if the amount were absent, and below 5000 it returns, once the
    age check has passed, the violation of slot "investmentAmount" with
    its fixed message. *)
Theorem investmentAmount_check_is_at_least_5000
    (investmentAmount : pyval) (m : Z) (req : intent_request) :
  parse_int investmentAmount = Ok (NInt m) ->
  (validate_data PNone investmentAmount PNone req = Ok valid_result <-> 5000 <= m) /\
  (5000 <= m ->
   forall age riskLevel,
     validate_data age investmentAmount riskLevel req =
     validate_data age PNone riskLevel req) /\
  (m < 5000 ->
   forall age riskLevel,
     validate_data age PNone PNone req = Ok valid_result ->
     validate_data age investmentAmount riskLevel req =
     Ok investmentAmount_violation) /\
  investmentAmount_violation =
    {| isValid := false;
       violatedSlot := PStr "investmentAmount";
       vr_message := Some {| contentType := "PlainText";
                             content := investmentAmount_message |} |}.
Proof.
  intros Hparse.
  pose proof (investmentAmount_flagged_parsed _ _ Hparse) as Hflag.
  split.
  { rewrite investmentAmount_alone_valid, Hflag, Z.ltb_ge. tauto. }
  split.
  { intros Hin age risk. rewrite !validate_data_closed_form.
    rewrite Hflag, investmentAmount_flagged_None.
    replace (m <? 5000)%Z with false by (symmetry; apply Z.ltb_ge; lia).
    reflexivity. }
  split; [|reflexivity].
  intros Hout age risk Hage. apply age_alone_valid in Hage.
  rewrite validate_data_closed_form, Hage, Hflag.
  replace (m <? 5000)%Z with true by (symmetry; apply Z.ltb_lt; lia).
  reflexivity.
Qed.

Lemma investmentAmount_check_is_at_least_5000_witness :
  parse_int (PStr "4999") = Ok (NInt 4999) /\
  validate_data (PStr "30") (PStr "4999") (PStr "low") request_all_valid
    = Ok investmentAmount_violation /\
  validate_data PNone (PInt 5000) PNone request_all_valid = Ok valid_result.
Proof.
  split; [reflexivity|]. split.
  - apply (proj1 (proj2 (proj2
      (investmentAmount_check_is_at_least_5000 (PStr "4999") 4999
         request_all_valid eq_refl)))); [lia | reflexivity].
  - apply (proj1 (investmentAmount_check_is_at_least_5000 (PInt 5000) 5000
                    request_all_valid eq_refl)).
    lia.
Defined.

(** C7.  A risk level given as a string passes the validator exactly
    when the string is literally "none", "low", "medium" or "high"; any
    other string, in particular one that differs only in case, gets, once
    the age and amount checks have passed, the violation of slot
    "riskLevel" with its fixed message. *)
Theorem riskLevel_check_is_exact_match (s : string) (req : intent_request) :
  (validate_data PNone PNone (PStr s) req = Ok valid_result <->
   s = "none" \/ s = "low" \/ s = "medium" \/ s = "high") /\
  (s = "none" \/ s = "low" \/ s = "medium" \/ s = "high" ->
   forall age investmentAmount,
     validate_data age investmentAmount (PStr s) req =
     validate_data age investmentAmount PNone req) /\
  (~ (s = "none" \/ s = "low" \/ s = "medium" \/ s = "high") ->
   forall age investmentAmount,
     validate_data age investmentAmount PNone req = Ok valid_result ->
     validate_data age investmentAmount (PStr s) req = Ok riskLevel_violation) /\
  riskLevel_violation =
    {| isValid := false;
       violatedSlot := PStr "riskLevel";
       vr_message := Some {| contentType := "PlainText";
                             content := riskLevel_message |} |}.
Proof.
  split.
  { rewrite riskLevel_alone_valid. apply riskLevel_flagged_PStr. }
  split.
  { intros Hin age amount. apply riskLevel_flagged_PStr in Hin.
    rewrite !validate_data_closed_form, Hin, riskLevel_flagged_None.
    reflexivity. }
  split; [|reflexivity].
  intros Hout age amount Hpass.
  apply earlier_checks_pass in Hpass as [Hage Hamount].
  rewrite validate_data_closed_form, Hage, Hamount.
  destruct (riskLevel_flagged (PStr s)) eqn:Hflag; [reflexivity|].
  apply riskLevel_flagged_PStr in Hflag. contradiction.
Qed.

Lemma riskLevel_check_is_exact_match_witness :
  validate_data (PStr "30") (PStr "10000") (PStr "High") request_all_valid
    = Ok riskLevel_violation /\
  validate_data PNone PNone (PStr "high") request_all_valid = Ok valid_result.
Proof.
  split.
  - apply (proj1 (proj2 (proj2
      (riskLevel_check_is_exact_match "High" request_all_valid)))).
    + intros [H|[H|[H|H]]]; discriminate H.
    + reflexivity.
  - apply (proj1 (riskLevel_check_is_exact_match "high" request_all_valid)).
    right; right; right; reflexivity.
Defined.

(** ** Order of the checks *)

Lemma first_violation_singles (age investmentAmount riskLevel : pyval)
    (req : intent_request) :
  validate_data age investmentAmount riskLevel req =
  first_violation
    [ validate_data age PNone PNone req;
      validate_data PNone investmentAmount PNone req;
      validate_data PNone PNone riskLevel req ].
Proof.
  rewrite age_alone, investmentAmount_alone, riskLevel_alone.
  rewrite validate_data_closed_form. simpl.
  destruct (age_flagged age); [reflexivity|].
  destruct (investmentAmount_flagged investmentAmount); [reflexivity|].
  destruct (riskLevel_flagged riskLevel); reflexivity.
Qed.

(** C8.  The validator checks age, then investmentAmount, then
    riskLevel: its result is the first violation among the three
    single-slot checks taken in that order, so a later violation is never
    reported together with, or instead of, an earlier one.  A slot whose
    value is null is skipped and never named as violated.  When no check
    fails the result is the success result: valid, with a null violated
    slot and no message. *)
Theorem validate_data_first_violation_in_order
    (age investmentAmount riskLevel : pyval) (req : intent_request) :
  validate_data age investmentAmount riskLevel req =
    first_violation
      [ validate_data age PNone PNone req;
        validate_data PNone investmentAmount PNone req;
        validate_data PNone PNone riskLevel req ] /\
  (validate_data age PNone PNone req = Ok age_violation ->
   validate_data age investmentAmount riskLevel req = Ok age_violation) /\
  (validate_data age PNone PNone req = Ok valid_result ->
   validate_data PNone investmentAmount PNone req = Ok investmentAmount_violation ->
   validate_data age investmentAmount riskLevel req = Ok investmentAmount_violation) /\
  (validate_data age PNone PNone req = Ok valid_result ->
   validate_data PNone investmentAmount PNone req = Ok valid_result ->
   validate_data age investmentAmount riskLevel req =
   validate_data PNone PNone riskLevel req) /\
  validate_data PNone PNone PNone req = Ok valid_result /\
  (forall r, validate_data PNone investmentAmount riskLevel req = Ok r ->
             violatedSlot r <> PStr "age") /\
  (forall r, validate_data age PNone riskLevel req = Ok r ->
             violatedSlot r <> PStr "investmentAmount") /\
  (forall r, validate_data age investmentAmount PNone req = Ok r ->
             violatedSlot r <> PStr "riskLevel") /\
  (exists r, validate_data age investmentAmount riskLevel req = Ok r /\
             (r = valid_result \/ r = age_violation \/
              r = investmentAmount_violation \/ r = riskLevel_violation)) /\
  valid_result = {| isValid := true; violatedSlot := PNone; vr_message := None |}.
Proof.
  split; [apply first_violation_singles|].
  split.
  { intros H. rewrite first_violation_singles, H. reflexivity. }
  split.
  { intros H1 H2. rewrite first_violation_singles, H1, H2. reflexivity. }
  split.
  { intros H1 H2. rewrite first_violation_singles, H1, H2. simpl.
    destruct (validate_data_total PNone PNone riskLevel req) as [r Hr].
    rewrite Hr. pose proof Hr as Hr'. rewrite riskLevel_alone in Hr'.
    injection Hr' as <-.
    destruct (riskLevel_flagged riskLevel); reflexivity. }
  split; [reflexivity|].
  split.
  { intros r. rewrite validate_data_closed_form, age_flagged_None.
    intros [= <-].
    destruct (investmentAmount_flagged investmentAmount);
      [|destruct (riskLevel_flagged riskLevel)]; discriminate. }
  split.
  { intros r. rewrite validate_data_closed_form, investmentAmount_flagged_None.
    intros [= <-].
    destruct (age_flagged age);
      [|destruct (riskLevel_flagged riskLevel)]; discriminate. }
  split.
  { intros r. rewrite validate_data_closed_form, riskLevel_flagged_None.
    intros [= <-].
    destruct (age_flagged age);
      [|destruct (investmentAmount_flagged investmentAmount)]; discriminate. }
  split; [|reflexivity].
  rewrite validate_data_closed_form. eexists; split; [reflexivity|].
  destruct (age_flagged age); [auto|].
  destruct (investmentAmount_flagged investmentAmount); [auto|].
  destruct (riskLevel_flagged riskLevel); auto.
Qed.

Lemma validate_data_first_violation_in_order_witness :
  validate_data (PStr "70") (PStr "100") (PStr "bogus") request_age_70
    = Ok age_violation /\
  validate_data (PStr "30") (PStr "100") (PStr "bogus") request_age_70
    = Ok investmentAmount_violation.
Proof.
  split.
  - apply (proj1 (proj2 (validate_data_first_violation_in_order
             (PStr "70") (PStr "100") (PStr "bogus") request_age_70))).
    reflexivity.
  - apply (proj1 (proj2 (proj2 (validate_data_first_violation_in_order
             (PStr "30") (PStr "100") (PStr "bogus") request_age_70))));
      reflexivity.
Defined.

(** ** The two phases of the handler *)

(** C3.  On a request whose slots dictionary has the four slot keys,
    the handler dispatches on the invocation source.  For "DialogCodeHook"
    with slots that validate successfully it returns a Delegate response
    with the current slots and the session attributes of the request, and
    leaves the request as it was.  For any other invocation source it
    returns a Close response with fulfillment state "Fulfilled" and a
    PlainText message whose content is the fixed sentence around the
    advice computed from the riskLevel slot as it stands, with no
    validation of that slot. *)
Theorem recommend_portfolio_two_phases (req : intent_request)
    (firstname age investmentAmount riskLevel : pyval) :
  slots (currentIntent req) !! PStr "firstname" = Some firstname ->
  slots (currentIntent req) !! PStr "age" = Some age ->
  slots (currentIntent req) !! PStr "investmentAmount" = Some investmentAmount ->
  slots (currentIntent req) !! PStr "riskLevel" = Some riskLevel ->
  (invocationSource req = "DialogCodeHook" ->
   forall r,
     validate_data age investmentAmount riskLevel req = Ok r ->
     isValid r = true ->
     recommend_portfolio req =
     (Ok {| resp_sessionAttributes := sessionAttributes req;
            dialogAction := Delegate (slots (currentIntent req)) |},
      req)) /\
  (invocationSource req <> "DialogCodeHook" ->
   recommend_portfolio req =
   (Ok {| resp_sessionAttributes := sessionAttributes req;
          dialogAction :=
            Close "Fulfilled"
              {| contentType := "PlainText";
                 content :=
                   "Based on your risk level, it is recommended that your portfolio should be "
                   +:+ get_advice riskLevel +:+ newline +:+ "            " |} |},
    req)).
Proof.
  intros H1 H2 H3 H4.
  rewrite (recommend_portfolio_present req _ _ _ _ H1 H2 H3 H4).
  split.
  - intros Hsrc r Hr Hvalid.
    rewrite bool_decide_true by assumption. rewrite Hr, Hvalid. reflexivity.
  - intros Hsrc. rewrite bool_decide_false by assumption. reflexivity.
Qed.

Lemma recommend_portfolio_two_phases_witness :
  recommend_portfolio request_all_valid =
    (Ok {| resp_sessionAttributes := sample_session;
           dialogAction := Delegate (slots (currentIntent request_all_valid)) |},
     request_all_valid) /\
  recommend_portfolio request_fulfil_low =
    (Ok {| resp_sessionAttributes := sample_session;
           dialogAction :=
             Close "Fulfilled"
               {| contentType := "PlainText";
                  content :=
                    "Based on your risk level, it is recommended that your portfolio should be "
                    +:+ "60% bonds (ACG), 40% equities (SPY)" +:+ newline
                    +:+ "            " |} |},
     request_fulfil_low).
Proof.
  split.
  - apply (proj1 (recommend_portfolio_two_phases request_all_valid
             (PStr "Ada") (PStr "30") (PStr "10000") (PStr "medium")
             eq_refl eq_refl eq_refl eq_refl) eq_refl valid_result);
      reflexivity.
  - apply (proj2 (recommend_portfolio_two_phases request_fulfil_low
             (PStr "Ada") (PStr "30") (PStr "10000") (PStr "low")
             eq_refl eq_refl eq_refl eq_refl)).
    discriminate.
Defined.

(** C4.  For "DialogCodeHook" with slots that fail validation the
    handler returns an ElicitSlot response: the slot named by the
    validator is set to null in the slots dictionary and is the slot to
    elicit, every other entry of the dictionary and the session
    attributes are those of the request, and the message is the one of
    the validation result.  The write goes through to the request
    object. *)
Theorem recommend_portfolio_elicits_violated_slot (req : intent_request)
    (firstname age investmentAmount riskLevel : pyval) (r : validation_result) :
  invocationSource req = "DialogCodeHook" ->
  slots (currentIntent req) !! PStr "firstname" = Some firstname ->
  slots (currentIntent req) !! PStr "age" = Some age ->
  slots (currentIntent req) !! PStr "investmentAmount" = Some investmentAmount ->
  slots (currentIntent req) !! PStr "riskLevel" = Some riskLevel ->
  validate_data age investmentAmount riskLevel req = Ok r ->
  isValid r = false ->
  exists (new_slots : gmap pyval pyval) (m : message_t),
    vr_message r = Some m /\
    In (violatedSlot r) [PStr "age"; PStr "investmentAmount"; PStr "riskLevel"] /\
    recommend_portfolio req =
      (Ok {| resp_sessionAttributes := sessionAttributes req;
             dialogAction :=
               ElicitSlot (name (currentIntent req)) new_slots (violatedSlot r) m |},
       update_slot (violatedSlot r) PNone req) /\
    new_slots !! violatedSlot r = Some PNone /\
    (forall k, k <> violatedSlot r ->
               new_slots !! k = slots (currentIntent req) !! k) /\
    slots (currentIntent (update_slot (violatedSlot r) PNone req)) = new_slots.
Proof.
  intros Hsrc H1 H2 H3 H4 Hr Hinvalid.
  exists (<[violatedSlot r := PNone]> (slots (currentIntent req))).
  assert (Hm : exists m, vr_message r = Some m /\
                 In (violatedSlot r)
                    [PStr "age"; PStr "investmentAmount"; PStr "riskLevel"]).
  { destruct (validate_data_invalid _ _ _ _ _ Hr Hinvalid) as [-> | [-> | ->]];
      eexists; (split; [reflexivity|]); simpl; auto. }
  destruct Hm as (m & Hm & Hin). exists m.
  split; [exact Hm|]. split; [exact Hin|]. split.
  { rewrite (recommend_portfolio_present req _ _ _ _ H1 H2 H3 H4).
    rewrite bool_decide_true by assumption.
    rewrite Hr, Hinvalid, Hm. reflexivity. }
  split; [apply lookup_insert_eq|].
  split; [|reflexivity].
  intros k Hk. apply lookup_insert_ne. congruence.
Qed.

Lemma recommend_portfolio_elicits_violated_slot_witness :
  exists (new_slots : gmap pyval pyval) (m : message_t),
    vr_message age_violation = Some m /\
    In (violatedSlot age_violation)
       [PStr "age"; PStr "investmentAmount"; PStr "riskLevel"] /\
    recommend_portfolio request_age_70 =
      (Ok {| resp_sessionAttributes := sessionAttributes request_age_70;
             dialogAction :=
               ElicitSlot (name (currentIntent request_age_70)) new_slots
                 (violatedSlot age_violation) m |},
       update_slot (violatedSlot age_violation) PNone request_age_70) /\
    new_slots !! violatedSlot age_violation = Some PNone /\
    (forall k, k <> violatedSlot age_violation ->
               new_slots !! k = slots (currentIntent request_age_70) !! k) /\
    slots (currentIntent (update_slot (violatedSlot age_violation) PNone
                            request_age_70)) = new_slots.
Proof.
  apply (recommend_portfolio_elicits_violated_slot request_age_70
           (PStr "Ada") (PStr "70") PNone PNone age_violation);
    reflexivity.
Defined.

(** ** Dispatch and entry point *)

(** C9.  For an intent name other than "recommendPortfolio" [dispatch]
    raises an exception and returns no response; for "recommendPortfolio"
    it returns what the portfolio handler returns.  [lambda_handler]
    hands the event to [dispatch] as it is and returns its outcome, so
    the exception leaves the entry point uncaught. *)
Theorem dispatch_routes_by_intent_name (req : intent_request) :
  (name (currentIntent req) <> "recommendPortfolio" ->
   dispatch req =
     (Raise (Exception ("Intent with name " +:+ name (currentIntent req)
                        +:+ " not supported")), req) /\
   (forall (r : response) (st : intent_request), dispatch req <> (Ok r, st)) /\
   (forall (Context : Type) (context : Context),
      lambda_handler req context =
      (Raise (Exception ("Intent with name " +:+ name (currentIntent req)
                         +:+ " not supported")), req))) /\
  (name (currentIntent req) = "recommendPortfolio" ->
   dispatch req = recommend_portfolio req) /\
  (forall (Context : Type) (context : Context),
     lambda_handler req context = dispatch req).
Proof.
  assert (Hraise : name (currentIntent req) <> "recommendPortfolio" ->
    dispatch req =
      (Raise (Exception ("Intent with name " +:+ name (currentIntent req)
                         +:+ " not supported")), req)).
  { intros Hname. unfold dispatch, bind, read. cbn.
    rewrite bool_decide_false by assumption. reflexivity. }
  split.
  { intros Hname. split; [exact (Hraise Hname)|]. split.
    - intros r st. rewrite (Hraise Hname). discriminate.
    - intros Context context. unfold lambda_handler. exact (Hraise Hname). }
  split.
  { intros Hname. unfold dispatch, bind, read. cbn.
    rewrite bool_decide_true by assumption. reflexivity. }
  reflexivity.
Qed.

Lemma dispatch_routes_by_intent_name_witness :
  lambda_handler request_unknown_intent tt =
    (Raise (Exception "Intent with name unknownIntent not supported"),
     request_unknown_intent) /\
  dispatch request_fulfil_low = recommend_portfolio request_fulfil_low.
Proof.
  split.
  - refine (proj2 (proj2 (proj1
      (dispatch_routes_by_intent_name request_unknown_intent) _)) unit tt).
    discriminate.
  - apply (proj1 (proj2 (dispatch_routes_by_intent_name request_fulfil_low))).
    reflexivity.
Defined.

(** ** Missing slot keys *)

Lemma recommend_portfolio_missing_key (req : intent_request) :
  (exists k, In k slot_keys /\ slots (currentIntent req) !! k = None) ->
  exists k, In k slot_keys /\ slots (currentIntent req) !! k = None /\
            recommend_portfolio req = (Raise (KeyError k), req).
Proof.
  intros Hmissing.
  destruct (slots (currentIntent req) !! PStr "firstname") as [firstname|] eqn:H1.
  2:{ exists (PStr "firstname"). split; [simpl; auto|]. split; [exact H1|].
      apply recommend_portfolio_no_firstname, H1. }
  destruct (slots (currentIntent req) !! PStr "age") as [age|] eqn:H2.
  2:{ exists (PStr "age"). split; [simpl; auto|]. split; [exact H2|].
      eapply recommend_portfolio_no_age; eassumption. }
  destruct (slots (currentIntent req) !! PStr "investmentAmount")
    as [amount|] eqn:H3.
  2:{ exists (PStr "investmentAmount"). split; [simpl; auto|].
      split; [exact H3|].
      eapply recommend_portfolio_no_investmentAmount; eassumption. }
  destruct (slots (currentIntent req) !! PStr "riskLevel") as [risk|] eqn:H4.
  2:{ exists (PStr "riskLevel"). split; [simpl; auto 6|]. split; [exact H4|].
      eapply recommend_portfolio_no_riskLevel; eassumption. }
  destruct Hmissing as (k & Hin & Hk). simpl in Hin.
  destruct Hin as [<- | [<- | [<- | [<- | []]]]]; congruence.
Qed.

(** The value of the "firstname" slot does not influence the outcome:
    with another value in that slot the handler gives the same response
    around the changed dictionary. *)
Lemma recommend_portfolio_ignores_firstname (req : intent_request) (v : pyval) :
  (forall k, In k slot_keys -> is_Some (slots (currentIntent req) !! k)) ->
  fst (recommend_portfolio (update_slot (PStr "firstname") v req)) =
  map_outcome (map_response_slots (insert (PStr "firstname") v))
    (fst (recommend_portfolio req)).
Proof.
  intros Hall.
  destruct (Hall (PStr "firstname")) as [firstname H1]; [simpl; auto|].
  destruct (Hall (PStr "age")) as [age H2]; [simpl; auto|].
  destruct (Hall (PStr "investmentAmount")) as [amount H3]; [simpl; auto|].
  destruct (Hall (PStr "riskLevel")) as [risk H4]; [simpl; auto 6|].
  rewrite (recommend_portfolio_present req _ _ _ _ H1 H2 H3 H4).
  rewrite (recommend_portfolio_present (update_slot (PStr "firstname") v req)
             v age amount risk).
  2:{ cbn. apply lookup_insert_eq. }
  2:{ cbn. rewrite lookup_insert_ne by discriminate. exact H2. }
  2:{ cbn. rewrite lookup_insert_ne by discriminate. exact H3. }
  2:{ cbn. rewrite lookup_insert_ne by discriminate. exact H4. }
  cbn [update_slot invocationSource sessionAttributes currentIntent name slots].
  destruct (bool_decide (invocationSource req = "DialogCodeHook"));
    [|reflexivity].
  rewrite (validate_data_request_irrelevant age amount risk _ req).
  destruct (validate_data age amount risk req) as [r|e] eqn:Hr; [|reflexivity].
  destruct (isValid r) eqn:Hvalid; [reflexivity|].
  destruct (validate_data_invalid _ _ _ _ _ Hr Hvalid) as [-> | [-> | ->]];
    cbn; unfold elicit_slot, map_response_slots; cbn;
    rewrite (insert_insert_ne _ (PStr "firstname")) by discriminate;
    reflexivity.
Qed.

(** C10.  The handler reads the keys "firstname", "age",
    "investmentAmount" and "riskLevel" of the slots dictionary before it
    looks at the invocation source.  When the dictionary lacks one of
    them, "firstname" included, the handler raises the key error of the
    first missing key and returns no response, whatever the invocation
    source.  The value read for "firstname" is used nowhere: the
    validator does not take it and the response does not depend on it. *)
Theorem recommend_portfolio_needs_all_slot_keys (req : intent_request) :
  ((exists k, In k slot_keys /\ slots (currentIntent req) !! k = None) ->
   exists k, In k slot_keys /\ slots (currentIntent req) !! k = None /\
             recommend_portfolio req = (Raise (KeyError k), req) /\
             forall (r : response) (st : intent_request),
               recommend_portfolio req <> (Ok r, st)) /\
  (slots (currentIntent req) !! PStr "firstname" = None ->
   recommend_portfolio req = (Raise (KeyError (PStr "firstname")), req)) /\
  (forall (r : response) (st : intent_request),
     recommend_portfolio req = (Ok r, st) ->
     forall k, In k slot_keys -> is_Some (slots (currentIntent req) !! k)) /\
  ((forall k, In k slot_keys -> is_Some (slots (currentIntent req) !! k)) ->
   forall v : pyval,
     fst (recommend_portfolio (update_slot (PStr "firstname") v req)) =
     map_outcome (map_response_slots (insert (PStr "firstname") v))
       (fst (recommend_portfolio req))).
Proof.
  split.
  { intros Hmissing.
    destruct (recommend_portfolio_missing_key req Hmissing) as (k & Hin & Hk & Hrp).
    exists k. repeat (split; [assumption|]).
    intros r st. rewrite Hrp. discriminate. }
  split; [apply recommend_portfolio_no_firstname|].
  split.
  { intros r st Hok k Hin.
    destruct (slots (currentIntent req) !! k) as [x|] eqn:Hk; [eauto|].
    destruct (recommend_portfolio_missing_key req) as (k' & _ & _ & Hrp);
      [eauto|].
    rewrite Hrp in Hok. discriminate. }
  intros Hall v. apply recommend_portfolio_ignores_firstname, Hall.
Qed.

Lemma recommend_portfolio_needs_all_slot_keys_witness :
  recommend_portfolio request_without_firstname =
    (Raise (KeyError (PStr "firstname")), request_without_firstname).
Proof.
  apply (proj1 (proj2
    (recommend_portfolio_needs_all_slot_keys request_without_firstname))).
  reflexivity.
Defined.

(** * Further properties of the code *)

Lemma parse_int_Raise_inv (v : pyval) (e : pyerr) :
  parse_int v = Raise e -> v = PNone /\ e = TypeError.
Proof.
  destruct v as [|z|s]; simpl.
  - intros [= <-]. auto.
  - discriminate.
  - rewrite parse_int_PStr. destruct (int_of_str s); discriminate.
Qed.

(** ** Shape of the validation result *)

(** X3.  Whatever the slot values, the validator raises nothing, and its
    result keeps the three entries in step: a valid result has a null
    violated slot and no message, an invalid one names one of "age",
    "investmentAmount", "riskLevel" and carries a PlainText message. *)
Theorem validate_data_result_invariant
    (age investmentAmount riskLevel : pyval) (req : intent_request) :
  exists r,
    validate_data age investmentAmount riskLevel req = Ok r /\
    (isValid r = true <-> violatedSlot r = PNone) /\
    (isValid r = true <-> vr_message r = None) /\
    (isValid r = false ->
     In (violatedSlot r) [PStr "age"; PStr "investmentAmount"; PStr "riskLevel"] /\
     exists text, vr_message r = Some {| contentType := "PlainText"; content := text |}).
Proof.
  rewrite validate_data_closed_form. eexists. split; [reflexivity|].
  destruct (age_flagged age);
    [|destruct (investmentAmount_flagged investmentAmount);
      [|destruct (riskLevel_flagged riskLevel)]];
    simpl; (split; [split; discriminate || reflexivity|]);
    (split; [split; discriminate || reflexivity|]);
    intros H; try discriminate H; (split; [auto|eexists; reflexivity]).
Qed.

Lemma validate_data_result_invariant_witness :
  exists r,
    validate_data (PStr "-1") (PStr "1") (PInt 3) request_age_70 = Ok r /\
    (isValid r = true <-> violatedSlot r = PNone) /\
    (isValid r = true <-> vr_message r = None) /\
    (isValid r = false ->
     In (violatedSlot r) [PStr "age"; PStr "investmentAmount"; PStr "riskLevel"] /\
     exists text, vr_message r = Some {| contentType := "PlainText"; content := text |}).
Proof.
  exact (validate_data_result_invariant (PStr "-1") (PStr "1") (PInt 3)
           request_age_70).
Defined.

(** ** When validation succeeds *)

Lemma age_flagged_false_iff (age : pyval) :
  age_flagged age = false <->
  age = PNone \/ parse_int age = Ok NaN \/
  exists a, parse_int age = Ok (NInt a) /\ 0 <= a <= 65.
Proof.
  unfold age_flagged. destruct (parse_int age) as [[a|]|e] eqn:Hparse.
  - rewrite orb_false_iff, Z.ltb_ge, Z.gtb_ltb, Z.ltb_ge. split.
    + intros [Hlo Hhi]. right; right. exists a. split; [reflexivity|lia].
    + intros [-> | [H | (a' & [= <-] & Hrange)]];
        [discriminate Hparse | discriminate H | lia].
  - split; auto.
  - apply parse_int_Raise_inv in Hparse as [-> _]. split; auto.
Qed.

Lemma investmentAmount_flagged_false_iff (amount : pyval) :
  investmentAmount_flagged amount = false <->
  amount = PNone \/ parse_int amount = Ok NaN \/
  exists m, parse_int amount = Ok (NInt m) /\ 5000 <= m.
Proof.
  unfold investmentAmount_flagged.
  destruct (parse_int amount) as [[m|]|e] eqn:Hparse.
  - rewrite Z.ltb_ge. split.
    + intros Hm. right; right. exists m. split; [reflexivity|lia].
    + intros [-> | [H | (m' & [= <-] & Hm)]];
        [discriminate Hparse | discriminate H | lia].
  - split; auto.
  - apply parse_int_Raise_inv in Hparse as [-> _]. split; auto.
Qed.

Lemma riskLevel_flagged_false_iff (riskLevel : pyval) :
  riskLevel_flagged riskLevel = false <->
  riskLevel = PNone \/ riskLevel = PStr "none" \/ riskLevel = PStr "low" \/
  riskLevel = PStr "medium" \/ riskLevel = PStr "high".
Proof.
  destruct riskLevel as [|z|s].
  - split; auto.
  - simpl. split; [discriminate|].
    intros [H|[H|[H|[H|H]]]]; discriminate H.
  - rewrite riskLevel_flagged_PStr. split.
    + intros [-> | [-> | [-> | ->]]]; auto 6.
    + intros [H|[[= ->]|[[= ->]|[[= ->]|[= ->]]]]]; [discriminate H| | | |];
        auto.
Qed.

(** X4.  The validator returns the success result exactly when each of
    the three slots is acceptable on its own: the age is null, does not
    read as an integer, or reads as one from 0 to 65; the investment
    amount is null, does not read as an integer, or reads as one that is
    at least 5000; the risk level is null or one of the four literal
    strings (a number is never an acceptable risk level). *)
Theorem validate_data_succeeds_iff
    (age investmentAmount riskLevel : pyval) (req : intent_request) :
  validate_data age investmentAmount riskLevel req = Ok valid_result <->
  (age = PNone \/ parse_int age = Ok NaN \/
   exists a, parse_int age = Ok (NInt a) /\ 0 <= a <= 65) /\
  (investmentAmount = PNone \/ parse_int investmentAmount = Ok NaN \/
   exists m, parse_int investmentAmount = Ok (NInt m) /\ 5000 <= m) /\
  (riskLevel = PNone \/ riskLevel = PStr "none" \/ riskLevel = PStr "low" \/
   riskLevel = PStr "medium" \/ riskLevel = PStr "high").
Proof.
  rewrite <- age_flagged_false_iff, <- investmentAmount_flagged_false_iff,
    <- riskLevel_flagged_false_iff.
  rewrite validate_data_closed_form.
  destruct (age_flagged age), (investmentAmount_flagged investmentAmount),
    (riskLevel_flagged riskLevel); simpl; split;
    first [ discriminate | intros (? & ? & ?); discriminate | auto ].
Qed.

Lemma validate_data_succeeds_iff_witness :
  validate_data (PStr "0") (PStr "huge") (PStr "high") request_all_valid
    = Ok valid_result.
Proof.
  apply (proj2 (validate_data_succeeds_iff (PStr "0") (PStr "huge") (PStr "high")
                  request_all_valid)).
  split; [|split].
  - right; right. exists 0. split; [reflexivity|lia].
  - right; left. reflexivity.
  - do 4 right. reflexivity.
Defined.

(** ** Outcomes of the handler and of the dispatcher *)

Lemma slot_keys_present_or_missing (d : gmap pyval pyval) :
  (forall k, In k slot_keys -> is_Some (d !! k)) \/
  (exists k, In k slot_keys /\ d !! k = None).
Proof.
  destruct (d !! PStr "firstname") eqn:H1;
    [|right; exists (PStr "firstname"); simpl; auto].
  destruct (d !! PStr "age") eqn:H2;
    [|right; exists (PStr "age"); simpl; auto].
  destruct (d !! PStr "investmentAmount") eqn:H3;
    [|right; exists (PStr "investmentAmount"); simpl; auto].
  destruct (d !! PStr "riskLevel") eqn:H4;
    [|right; exists (PStr "riskLevel"); simpl; auto 6].
  left. intros k Hin. simpl in Hin.
  destruct Hin as [<- | [<- | [<- | [<- | []]]]]; eauto.
Qed.

Lemma recommend_portfolio_present_responds (req : intent_request) :
  (forall k, In k slot_keys -> is_Some (slots (currentIntent req) !! k)) ->
  exists r st,
    recommend_portfolio req = (Ok r, st) /\
    (da_type (dialogAction r) = "Close" <->
     invocationSource req <> "DialogCodeHook").
Proof.
  intros Hall.
  destruct (Hall (PStr "firstname")) as [firstname H1]; [simpl; auto|].
  destruct (Hall (PStr "age")) as [age H2]; [simpl; auto|].
  destruct (Hall (PStr "investmentAmount")) as [amount H3]; [simpl; auto|].
  destruct (Hall (PStr "riskLevel")) as [risk H4]; [simpl; auto 6|].
  rewrite (recommend_portfolio_present req _ _ _ _ H1 H2 H3 H4).
  case_bool_decide as Hsrc.
  - rewrite validate_data_closed_form.
    destruct (age_flagged age);
      [|destruct (investmentAmount_flagged amount);
        [|destruct (riskLevel_flagged risk)]];
      cbn; do 2 eexists; (split; [reflexivity|]); cbn;
      (split; [discriminate | intros Hne; contradiction]).
  - do 2 eexists. split; [reflexivity|]. cbn. split; auto.
Qed.

(** ** Repeated dialog turns *)

Lemma offending_le_3 (d : gmap pyval pyval) : (offending d <= 3)%nat.
Proof.
  unfold offending.
  destruct (slot_flagged age_flagged d (PStr "age")),
    (slot_flagged investmentAmount_flagged d (PStr "investmentAmount")),
    (slot_flagged riskLevel_flagged d (PStr "riskLevel")); simpl; lia.
Qed.

(** One dialog-hook turn on a request with the four keys: either nothing
    offends and the handler delegates, or it elicits one slot and the
    request it leaves behind has one offending slot less. *)
Lemma dialog_turn_step (req : intent_request) :
  invocationSource req = "DialogCodeHook" ->
  (forall k, In k slot_keys -> is_Some (slots (currentIntent req) !! k)) ->
  (offending (slots (currentIntent req)) = O /\
   recommend_portfolio req =
     (Ok (delegate (sessionAttributes req) (slots (currentIntent req))), req)) \/
  (exists k m,
     In k [PStr "age"; PStr "investmentAmount"; PStr "riskLevel"] /\
     recommend_portfolio req =
       (Ok (elicit_slot (sessionAttributes req) (name (currentIntent req))
              (<[k := PNone]> (slots (currentIntent req))) k m),
        update_slot k PNone req) /\
     S (offending (<[k := PNone]> (slots (currentIntent req)))) =
       offending (slots (currentIntent req))).
Proof.
  intros Hsrc Hall.
  destruct (Hall (PStr "firstname")) as [firstname H1]; [simpl; auto|].
  destruct (Hall (PStr "age")) as [age H2]; [simpl; auto|].
  destruct (Hall (PStr "investmentAmount")) as [amount H3]; [simpl; auto|].
  destruct (Hall (PStr "riskLevel")) as [risk H4]; [simpl; auto 6|].
  rewrite (recommend_portfolio_present req _ _ _ _ H1 H2 H3 H4).
  rewrite bool_decide_true by assumption.
  rewrite validate_data_closed_form.
  unfold offending, slot_flagged.
  rewrite H2, H3, H4.
  destruct (age_flagged age) eqn:Fa.
  { right. exists (PStr "age"). eexists. split; [simpl; auto|].
    split; [reflexivity|].
    cbn [violatedSlot age_violation build_validation_result].
    rewrite lookup_insert_eq, !lookup_insert_ne by discriminate.
    rewrite H3, H4. reflexivity. }
  destruct (investmentAmount_flagged amount) eqn:Fi.
  { right. exists (PStr "investmentAmount"). eexists. split; [simpl; auto|].
    split; [reflexivity|].
    cbn [violatedSlot investmentAmount_violation build_validation_result].
    rewrite lookup_insert_eq, !lookup_insert_ne by discriminate.
    rewrite H2, H4, Fa. reflexivity. }
  destruct (riskLevel_flagged risk) eqn:Fr.
  { right. exists (PStr "riskLevel"). eexists. split; [simpl; auto|].
    split; [reflexivity|].
    cbn [violatedSlot riskLevel_violation build_validation_result].
    rewrite lookup_insert_eq, !lookup_insert_ne by discriminate.
    rewrite H2, H3, Fa, Fi. reflexivity. }
  left. split; reflexivity.
Qed.

Lemma update_slot_keeps_keys (k v : pyval) (req : intent_request) :
  (forall k', In k' slot_keys -> is_Some (slots (currentIntent req) !! k')) ->
  forall k', In k' slot_keys ->
             is_Some (slots (currentIntent (update_slot k v req)) !! k').
Proof.
  intros Hall k' Hin. cbn.
  destruct (decide (k = k')) as [->|Hne].
  - rewrite lookup_insert_eq. eauto.
  - rewrite lookup_insert_ne by assumption. auto.
Qed.

Lemma after_turns_clean (n : nat) :
  forall req : intent_request,
    invocationSource req = "DialogCodeHook" ->
    (forall k, In k slot_keys -> is_Some (slots (currentIntent req) !! k)) ->
    (offending (slots (currentIntent req)) <= n)%nat ->
    offending (slots (currentIntent (after_turns n req))) = O /\
    invocationSource (after_turns n req) = "DialogCodeHook" /\
    sessionAttributes (after_turns n req) = sessionAttributes req /\
    (forall k, In k slot_keys ->
               is_Some (slots (currentIntent (after_turns n req)) !! k)).
Proof.
  induction n as [|n IH]; intros req Hsrc Hall Hle.
  - simpl. repeat split; [lia | assumption | assumption].
  - simpl.
    destruct (dialog_turn_step req Hsrc Hall)
      as [[Hzero ->] | (k & m & Hin & -> & Hdec)]; cbn [snd].
    + apply IH; [assumption | assumption | lia].
    + destruct (IH (update_slot k PNone req)) as (Hoff & Hs & Hsa & Hkeys).
      * exact Hsrc.
      * apply update_slot_keeps_keys, Hall.
      * cbn. lia.
      * repeat split; assumption.
Qed.

(** A call of the handler either elicits nothing and leaves the request
    as it was, or elicits a slot whose value was not null and sets it to
    null. *)
Lemma recommend_portfolio_cases (req : intent_request) :
  (elicited (fst (recommend_portfolio req)) = None /\
   snd (recommend_portfolio req) = req) \/
  (exists k,
     elicited (fst (recommend_portfolio req)) = Some k /\
     snd (recommend_portfolio req) = update_slot k PNone req /\
     slots (currentIntent req) !! k <> Some PNone).
Proof.
  destruct (slot_keys_present_or_missing (slots (currentIntent req)))
    as [Hall|Hex].
  2:{ destruct (recommend_portfolio_missing_key req Hex) as (k & _ & _ & ->).
      left. split; reflexivity. }
  destruct (Hall (PStr "firstname")) as [firstname H1]; [simpl; auto|].
  destruct (Hall (PStr "age")) as [age H2]; [simpl; auto|].
  destruct (Hall (PStr "investmentAmount")) as [amount H3]; [simpl; auto|].
  destruct (Hall (PStr "riskLevel")) as [risk H4]; [simpl; auto 6|].
  rewrite (recommend_portfolio_present req _ _ _ _ H1 H2 H3 H4).
  case_bool_decide as Hsrc; [|left; split; reflexivity].
  rewrite validate_data_closed_form.
  destruct (age_flagged age) eqn:Fa.
  { right. exists (PStr "age"). repeat split. rewrite H2. intros [= ->].
    discriminate Fa. }
  destruct (investmentAmount_flagged amount) eqn:Fi.
  { right. exists (PStr "investmentAmount"). repeat split. rewrite H3.
    intros [= ->]. discriminate Fi. }
  destruct (riskLevel_flagged risk) eqn:Fr.
  { right. exists (PStr "riskLevel"). repeat split. rewrite H4.
    intros [= ->]. discriminate Fr. }
  left. split; reflexivity.
Qed.

Lemma null_slot_stays_null (k : pyval) (n : nat) :
  forall req : intent_request,
    slots (currentIntent req) !! k = Some PNone ->
    slots (currentIntent (after_turns n req)) !! k = Some PNone.
Proof.
  induction n as [|n IH]; intros req Hk; [exact Hk|].
  simpl. apply IH.
  destruct (recommend_portfolio_cases req) as [[_ ->] | (k' & _ & -> & _)];
    [exact Hk|].
  cbn. destruct (decide (k' = k)) as [->|Hne].
  - apply lookup_insert_eq.
  - rewrite lookup_insert_ne by assumption. exact Hk.
Qed.

Lemma after_turns_add (a b : nat) :
  forall req : intent_request,
    after_turns (a + b) req = after_turns b (after_turns a req).
Proof.
  induction a as [|a IH]; intros req; [reflexivity|].
  simpl. apply IH.
Qed.

Lemma no_slot_elicited_twice (req : intent_request) (i j : nat) (k : pyval) :
  (i < j)%nat ->
  elicited (fst (recommend_portfolio (after_turns i req))) = Some k ->
  elicited (fst (recommend_portfolio (after_turns j req))) <> Some k.
Proof.
  intros Hlt Hi Hj.
  replace j with (i + 1 + (j - i - 1))%nat in Hj by lia.
  rewrite !after_turns_add in Hj.
  set (req_i := after_turns i req) in *.
  assert (Hnull : slots (currentIntent (after_turns 1 req_i)) !! k = Some PNone).
  { simpl.
    destruct (recommend_portfolio_cases req_i)
      as [[Hnone _] | (k' & Hk' & -> & _)]; [congruence|].
    rewrite Hi in Hk'. injection Hk' as <-. cbn. apply lookup_insert_eq. }
  apply (null_slot_stays_null k (j - i - 1)) in Hnull.
  destruct (recommend_portfolio_cases
              (after_turns (j - i - 1) (after_turns 1 req_i)))
    as [[Hnone _] | (k' & Hk' & _ & Hnot)]; [congruence|].
  rewrite Hj in Hk'. injection Hk' as <-. contradiction.
Qed.

(** X6.  On a request with the four keys and invocation source
    "DialogCodeHook", the handler delegates exactly when no slot offends,
    and each turn that changes the request leaves it with exactly one
    offending slot less.  Hence, calling the handler again and again on
    the request it left behind, the fourth call at the latest answers
    Delegate; and the handler never asks twice for the same slot: a slot
    elicited in one turn is elicited in no later turn. *)
Theorem dialog_turns_converge (req : intent_request) :
  invocationSource req = "DialogCodeHook" ->
  (forall k, In k slot_keys -> is_Some (slots (currentIntent req) !! k)) ->
  (offending (slots (currentIntent req)) = O <->
   recommend_portfolio req =
     (Ok (delegate (sessionAttributes req) (slots (currentIntent req))), req)) /\
  (forall r st,
     recommend_portfolio req = (Ok r, st) -> st <> req ->
     S (offending (slots (currentIntent st))) =
       offending (slots (currentIntent req))) /\
  recommend_portfolio (after_turns 3 req) =
    (Ok (delegate (sessionAttributes req)
           (slots (currentIntent (after_turns 3 req)))),
     after_turns 3 req) /\
  (forall (i j : nat) (k : pyval),
     (i < j)%nat ->
     elicited (fst (recommend_portfolio (after_turns i req))) = Some k ->
     elicited (fst (recommend_portfolio (after_turns j req))) <> Some k).
Proof.
  intros Hsrc Hall. split; [|split; [|split]].
  - destruct (dialog_turn_step req Hsrc Hall)
      as [[Hzero Hrp] | (k & m & Hin & Hrp & Hdec)].
    + split; auto.
    + split; [intros Hzero; rewrite Hzero in Hdec; discriminate|].
      rewrite Hrp. discriminate.
  - intros r st Hok Hne.
    destruct (dialog_turn_step req Hsrc Hall)
      as [[Hzero Hrp] | (k & m & Hin & Hrp & Hdec)];
      rewrite Hrp in Hok; injection Hok as <- <-.
    + contradiction.
    + exact Hdec.
  - destruct (after_turns_clean 3 req Hsrc Hall (offending_le_3 _))
      as (Hoff & Hsrc3 & Hsa & Hkeys).
    destruct (dialog_turn_step (after_turns 3 req) Hsrc3 Hkeys)
      as [[_ Hrp] | (k & m & _ & _ & Hdec)].
    + rewrite Hrp, Hsa. reflexivity.
    + rewrite Hoff in Hdec. discriminate.
  - intros i j k. apply no_slot_elicited_twice.
Qed.

Lemma dialog_turns_converge_witness :
  recommend_portfolio (after_turns 3 request_three_bad) =
    (Ok (delegate (sessionAttributes request_three_bad)
           (slots (currentIntent (after_turns 3 request_three_bad)))),
     after_turns 3 request_three_bad) /\
  elicited (fst (recommend_portfolio (after_turns 1 request_three_bad)))
    <> Some (PStr "age").
Proof.
  assert (Hkeys : forall k, In k slot_keys ->
            is_Some (slots (currentIntent request_three_bad) !! k)).
  { intros k Hin. simpl in Hin.
    destruct Hin as [<- | [<- | [<- | [<- | []]]]]; eexists; reflexivity. }
  destruct (dialog_turns_converge request_three_bad eq_refl Hkeys)
    as (_ & _ & Hthird & Hnever).
  split; [exact Hthird|].
  apply (Hnever 0%nat 1%nat (PStr "age")); [lia | reflexivity].
Defined.

(** ** Validation and advice together *)

(** X8.  On the risk levels that the validator accepts, the advice table
    is one-to-one: two accepted, non-null risk levels with the same
    advice are the same level. *)
Theorem advice_separates_accepted_risk_levels (r1 r2 : pyval)
    (req : intent_request) :
  r1 <> PNone -> r2 <> PNone ->
  validate_data PNone PNone r1 req = Ok valid_result ->
  validate_data PNone PNone r2 req = Ok valid_result ->
  get_advice r1 = get_advice r2 ->
  r1 = r2.
Proof.
  intros Hn1 Hn2 Hv1 Hv2.
  apply riskLevel_alone_valid, riskLevel_flagged_false_iff in Hv1.
  apply riskLevel_alone_valid, riskLevel_flagged_false_iff in Hv2.
  destruct Hv1 as [-> | [-> | [-> | [-> | ->]]]]; [contradiction | | | |];
    (destruct Hv2 as [-> | [-> | [-> | [-> | ->]]]]; [contradiction | | | |]);
    intros Hadvice; first [reflexivity | discriminate Hadvice].
Qed.

Lemma advice_separates_accepted_risk_levels_witness :
  PStr "medium" = PStr "medium".
Proof.
  apply (advice_separates_accepted_risk_levels (PStr "medium") (PStr "medium")
           request_all_valid);
    first [discriminate | reflexivity].
Defined.

(** ** Events with missing keys *)

(** The validator over events is the validator over requests. *)
Lemma raw_validate_data_closed_form (age investmentAmount riskLevel : pyval)
    (ev : Raw.event) :
  Raw.validate_data age investmentAmount riskLevel ev =
  Ok (if age_flagged age then age_violation
      else if investmentAmount_flagged investmentAmount
           then investmentAmount_violation
      else if riskLevel_flagged riskLevel then riskLevel_violation
      else valid_result).
Proof.
  exact (validate_data_closed_form age investmentAmount riskLevel
           request_all_valid).
Qed.

Lemma raw_dispatch_unfold (ev : Raw.event) :
  Raw.dispatch ev =
  match Raw.currentIntent ev with
  | None => (Raise (KeyError (PStr "currentIntent")), ev)
  | Some current =>
      match Raw.name current with
      | None => (Raise (KeyError (PStr "name")), ev)
      | Some n =>
          if bool_decide (n = "recommendPortfolio")
          then Raw.recommend_portfolio ev
          else (Raise (Exception ("Intent with name " +:+ n
                                  +:+ " not supported")), ev)
      end
  end.
Proof.
  unfold Raw.dispatch, Raw.bind, Raw.event_item, Raw.subscript.
  destruct (Raw.currentIntent ev) as [current|]; [|reflexivity]. cbn.
  destruct (Raw.name current) as [n|]; [|reflexivity]. cbn.
  destruct (bool_decide (n = "recommendPortfolio")); reflexivity.
Qed.

Lemma raw_get_slots (ev : Raw.event) (current : Raw.intent) :
  Raw.currentIntent ev = Some current ->
  Raw.get_slots ev =
  match Raw.slots current with
  | Some d => (Ok d, ev)
  | None => (Raise (KeyError (PStr "slots")), ev)
  end.
Proof.
  intros Hc. unfold Raw.get_slots, Raw.bind, Raw.event_item, Raw.subscript.
  rewrite Hc. cbn. destruct (Raw.slots current); reflexivity.
Qed.

Lemma raw_recommend_portfolio_no_slots (ev : Raw.event) (current : Raw.intent) :
  Raw.currentIntent ev = Some current ->
  Raw.slots current = None ->
  Raw.recommend_portfolio ev = (Raise (KeyError (PStr "slots")), ev).
Proof.
  intros Hc Hs. unfold Raw.recommend_portfolio. unfold Raw.bind at 1 2.
  rewrite (raw_get_slots ev current Hc), Hs. reflexivity.
Qed.

Lemma raw_recommend_portfolio_missing_key (ev : Raw.event)
    (current : Raw.intent) (d : gmap pyval pyval) :
  Raw.currentIntent ev = Some current ->
  Raw.slots current = Some d ->
  (exists k, In k slot_keys /\ d !! k = None) ->
  exists k, In k slot_keys /\ d !! k = None /\
            Raw.recommend_portfolio ev = (Raise (KeyError k), ev).
Proof.
  intros Hc Hs Hmissing.
  pose proof (raw_get_slots ev current Hc) as Hget. rewrite Hs in Hget.
  unfold Raw.recommend_portfolio, Raw.bind. rewrite Hget.
  unfold Raw.getitem.
  destruct (d !! PStr "firstname") as [firstname|] eqn:H1.
  2:{ exists (PStr "firstname"). simpl. auto. }
  cbn. rewrite Hget.
  destruct (d !! PStr "age") as [age|] eqn:H2.
  2:{ exists (PStr "age"). simpl. auto. }
  cbn. rewrite Hget.
  destruct (d !! PStr "investmentAmount") as [amount|] eqn:H3.
  2:{ exists (PStr "investmentAmount"). simpl. auto. }
  cbn. rewrite Hget.
  destruct (d !! PStr "riskLevel") as [risk|] eqn:H4.
  2:{ exists (PStr "riskLevel"). simpl. auto 6. }
  destruct Hmissing as (k & Hin & Hk). simpl in Hin.
  destruct Hin as [<- | [<- | [<- | [<- | []]]]]; congruence.
Qed.

(** With a slots dictionary that has the four keys, the handler is a
    case distinction on the remaining lookups. *)
Lemma raw_recommend_portfolio_present (ev : Raw.event) (current : Raw.intent)
    (d : gmap pyval pyval) (firstname age investmentAmount riskLevel : pyval) :
  Raw.currentIntent ev = Some current ->
  Raw.slots current = Some d ->
  d !! PStr "firstname" = Some firstname ->
  d !! PStr "age" = Some age ->
  d !! PStr "investmentAmount" = Some investmentAmount ->
  d !! PStr "riskLevel" = Some riskLevel ->
  Raw.recommend_portfolio ev =
  match Raw.invocationSource ev with
  | None => (Raise (KeyError (PStr "invocationSource")), ev)
  | Some source =>
      if bool_decide (source = "DialogCodeHook") then
        match Raw.validate_data age investmentAmount riskLevel ev with
        | Ok r =>
            if isValid r then
              match Raw.sessionAttributes ev with
              | Some session => (Ok (delegate session d), ev)
              | None => (Raise (KeyError (PStr "sessionAttributes")), ev)
              end
            else
              match Raw.sessionAttributes ev with
              | None =>
                  (Raise (KeyError (PStr "sessionAttributes")),
                   Raw.update_slot (violatedSlot r) PNone ev)
              | Some session =>
                  match Raw.name current with
                  | None =>
                      (Raise (KeyError (PStr "name")),
                       Raw.update_slot (violatedSlot r) PNone ev)
                  | Some n =>
                      match vr_message r with
                      | Some m =>
                          (Ok (elicit_slot session n
                                 (<[violatedSlot r := PNone]> d)
                                 (violatedSlot r) m),
                           Raw.update_slot (violatedSlot r) PNone ev)
                      | None =>
                          (Raise (KeyError (PStr "message")),
                           Raw.update_slot (violatedSlot r) PNone ev)
                      end
                  end
              end
        | Raise e => (Raise e, ev)
        end
      else
        match Raw.sessionAttributes ev with
        | Some session =>
            (Ok (close session "Fulfilled"
                   {| contentType := "PlainText";
                      content := format_advice (get_advice riskLevel) |}), ev)
        | None => (Raise (KeyError (PStr "sessionAttributes")), ev)
        end
  end.
Proof.
  intros Hc Hs H1 H2 H3 H4.
  pose proof (raw_get_slots ev current Hc) as Hget. rewrite Hs in Hget.
  unfold Raw.recommend_portfolio, Raw.bind. rewrite Hget.
  unfold Raw.getitem. rewrite H1. cbn. rewrite Hget, H2. cbn.
  rewrite Hget, H3. cbn. rewrite Hget, H4. cbn.
  unfold Raw.event_item, Raw.subscript.
  destruct (Raw.invocationSource ev) as [source|]; [|reflexivity]. cbn.
  destruct (bool_decide (source = "DialogCodeHook")).
  2:{ destruct (Raw.sessionAttributes ev); reflexivity. }
  rewrite Hget. unfold Raw.lift.
  destruct (Raw.validate_data age investmentAmount riskLevel ev) as [r|e];
    [|reflexivity].
  destruct (isValid r); cbn.
  { destruct (Raw.sessionAttributes ev); [|reflexivity]. cbn.
    rewrite Hget. reflexivity. }
  destruct (Raw.sessionAttributes ev) as [session|]; [|reflexivity]. cbn.
  rewrite Hc. cbn.
  destruct (Raw.name current) as [n|]; [|reflexivity]. cbn.
  unfold Raw.get_slots, Raw.bind, Raw.event_item, Raw.subscript. cbn.
  rewrite Hc, Hs. cbn.
  unfold Raw.getitem_message. destruct (vr_message r); reflexivity.
Qed.

(** Every way in which a call of the dispatcher on an event can go. *)
Lemma raw_dispatch_cases (ev : Raw.event) :
  (Raw.currentIntent ev = None /\
   Raw.dispatch ev = (Raise (KeyError (PStr "currentIntent")), ev)) \/
  (exists current,
     Raw.currentIntent ev = Some current /\ Raw.name current = None /\
     Raw.dispatch ev = (Raise (KeyError (PStr "name")), ev)) \/
  (exists current n,
     Raw.currentIntent ev = Some current /\ Raw.name current = Some n /\
     n <> "recommendPortfolio" /\
     Raw.dispatch ev =
       (Raise (Exception ("Intent with name " +:+ n +:+ " not supported")), ev)) \/
  (exists current,
     Raw.currentIntent ev = Some current /\
     Raw.name current = Some "recommendPortfolio" /\
     Raw.slots current = None /\
     Raw.dispatch ev = (Raise (KeyError (PStr "slots")), ev)) \/
  (exists current d k,
     Raw.currentIntent ev = Some current /\
     Raw.name current = Some "recommendPortfolio" /\
     Raw.slots current = Some d /\
     In k slot_keys /\ d !! k = None /\
     Raw.dispatch ev = (Raise (KeyError k), ev)) \/
  (exists current d,
     reads_all_slots ev current d /\
     Raw.invocationSource ev = None /\
     Raw.dispatch ev = (Raise (KeyError (PStr "invocationSource")), ev)) \/
  (exists current d source,
     reads_all_slots ev current d /\
     Raw.invocationSource ev = Some source /\
     Raw.sessionAttributes ev = None /\
     Raw.dispatch ev = (Raise (KeyError (PStr "sessionAttributes")), ev)) \/
  (exists current d k,
     reads_all_slots ev current d /\
     Raw.invocationSource ev = Some "DialogCodeHook" /\
     Raw.sessionAttributes ev = None /\
     In k [PStr "age"; PStr "investmentAmount"; PStr "riskLevel"] /\
     Raw.dispatch ev =
       (Raise (KeyError (PStr "sessionAttributes")),
        Raw.update_slot k PNone ev)) \/
  (exists current d source session r,
     reads_all_slots ev current d /\
     Raw.invocationSource ev = Some source /\
     Raw.sessionAttributes ev = Some session /\
     Raw.dispatch ev = (Ok r, ev) /\
     elicited (Ok r) = None /\
     (da_type (dialogAction r) = "Close" <-> source <> "DialogCodeHook")) \/
  (exists current d session k m,
     reads_all_slots ev current d /\
     Raw.invocationSource ev = Some "DialogCodeHook" /\
     Raw.sessionAttributes ev = Some session /\
     In k [PStr "age"; PStr "investmentAmount"; PStr "riskLevel"] /\
     Raw.dispatch ev =
       (Ok (elicit_slot session "recommendPortfolio" (<[k := PNone]> d) k m),
        Raw.update_slot k PNone ev)).
Proof.
  rewrite raw_dispatch_unfold.
  destruct (Raw.currentIntent ev) as [current|] eqn:Hc; [|left; auto].
  destruct (Raw.name current) as [n|] eqn:Hn;
    [|right; left; exists current; auto].
  case_bool_decide as Hname;
    [|right; right; left; exists current, n; auto].
  subst n.
  destruct (Raw.slots current) as [d|] eqn:Hs.
  2:{ do 3 right. left. exists current. repeat (split; [first [assumption | reflexivity]|]).
      apply (raw_recommend_portfolio_no_slots ev current Hc Hs). }
  destruct (slot_keys_present_or_missing d) as [Hall|Hex].
  2:{ do 4 right. left.
      destruct (raw_recommend_portfolio_missing_key ev current d Hc Hs Hex)
        as (k & Hin & Hk & Hraise).
      exists current, d, k. auto 7. }
  assert (Hreads : reads_all_slots ev current d) by (repeat split; auto).
  destruct (Hall (PStr "firstname")) as [firstname H1]; [simpl; auto|].
  destruct (Hall (PStr "age")) as [age H2]; [simpl; auto|].
  destruct (Hall (PStr "investmentAmount")) as [amount H3]; [simpl; auto|].
  destruct (Hall (PStr "riskLevel")) as [risk H4]; [simpl; auto 6|].
  rewrite (raw_recommend_portfolio_present ev current d _ _ _ _
             Hc Hs H1 H2 H3 H4).
  rewrite Hn.
  destruct (Raw.invocationSource ev) as [source|];
    [|do 5 right; left; exists current, d; auto].
  rewrite raw_validate_data_closed_form.
  case_bool_decide as Hsrc.
  - subst source.
    destruct (Raw.sessionAttributes ev) as [session|].
    + destruct (age_flagged age);
        [|destruct (investmentAmount_flagged amount);
          [|destruct (riskLevel_flagged risk)]]; cbn.
      * do 9 right. exists current, d, session, (PStr "age"). eexists.
        repeat (split; [first [assumption | reflexivity | simpl; auto]|]).
        reflexivity.
      * do 9 right. exists current, d, session, (PStr "investmentAmount").
        eexists.
        repeat (split; [first [assumption | reflexivity | simpl; auto]|]).
        reflexivity.
      * do 9 right. exists current, d, session, (PStr "riskLevel"). eexists.
        repeat (split; [first [assumption | reflexivity | simpl; auto]|]).
        reflexivity.
      * do 8 right. left. exists current, d, "DialogCodeHook", session.
        eexists. repeat (split; [first [assumption | reflexivity]|]).
        cbn. split; [discriminate|intros Hne; contradiction].
    + destruct (age_flagged age);
        [|destruct (investmentAmount_flagged amount);
          [|destruct (riskLevel_flagged risk)]]; cbn.
      * do 7 right. left. exists current, d, (PStr "age").
        repeat (split; [first [assumption | reflexivity | simpl; auto]|]).
        reflexivity.
      * do 7 right. left. exists current, d, (PStr "investmentAmount").
        repeat (split; [first [assumption | reflexivity | simpl; auto]|]).
        reflexivity.
      * do 7 right. left. exists current, d, (PStr "riskLevel").
        repeat (split; [first [assumption | reflexivity | simpl; auto]|]).
        reflexivity.
      * do 6 right. left. exists current, d, "DialogCodeHook". auto.
  - destruct (Raw.sessionAttributes ev) as [session|].
    + do 8 right. left. exists current, d, source, session. eexists.
      repeat (split; [first [assumption | reflexivity]|]).
      cbn. split; auto.
    + do 6 right. left. exists current, d, source. auto.
Qed.

Lemma raw_update_slot_slots (k v : pyval) (ev : Raw.event)
    (current : Raw.intent) (d : gmap pyval pyval) :
  Raw.currentIntent ev = Some current ->
  Raw.slots current = Some d ->
  Raw.slots_of (Raw.update_slot k v ev) = Some (<[k := v]> d) /\
  Raw.name_of (Raw.update_slot k v ev) = Raw.name_of ev /\
  Raw.slots_of ev = Some d.
Proof.
  intros Hc Hs. unfold Raw.slots_of, Raw.name_of, Raw.update_slot. cbn.
  rewrite Hc. cbn. rewrite Hs. auto.
Qed.

(** On an event that has all the keys, the handler over events does
    what the handler over requests does. *)
Lemma raw_dispatch_of_request (req : intent_request) :
  Raw.dispatch (of_request req) =
  (fst (dispatch req), of_request (snd (dispatch req))).
Proof.
  rewrite raw_dispatch_unfold. cbn.
  unfold dispatch, bind, read. cbn.
  case_bool_decide as Hname; [|reflexivity].
  assert (Hget : Raw.get_slots (of_request req) =
                   (Ok (slots (currentIntent req)), of_request req))
    by reflexivity.
  destruct (slots (currentIntent req) !! PStr "firstname")
    as [firstname|] eqn:H1.
  2:{ rewrite (recommend_portfolio_no_firstname req H1).
      unfold Raw.recommend_portfolio, Raw.bind. rewrite Hget.
      unfold Raw.getitem. rewrite H1. reflexivity. }
  destruct (slots (currentIntent req) !! PStr "age") as [age|] eqn:H2.
  2:{ rewrite (recommend_portfolio_no_age req _ H1 H2).
      unfold Raw.recommend_portfolio, Raw.bind. rewrite Hget.
      unfold Raw.getitem. rewrite H1. cbn. rewrite H2. reflexivity. }
  destruct (slots (currentIntent req) !! PStr "investmentAmount")
    as [amount|] eqn:H3.
  2:{ rewrite (recommend_portfolio_no_investmentAmount req _ _ H1 H2 H3).
      unfold Raw.recommend_portfolio, Raw.bind. rewrite Hget.
      unfold Raw.getitem. rewrite H1. cbn. rewrite H2. cbn.
      rewrite H3. reflexivity. }
  destruct (slots (currentIntent req) !! PStr "riskLevel") as [risk|] eqn:H4.
  2:{ rewrite (recommend_portfolio_no_riskLevel req _ _ _ H1 H2 H3 H4).
      unfold Raw.recommend_portfolio, Raw.bind. rewrite Hget.
      unfold Raw.getitem. rewrite H1. cbn. rewrite H2. cbn.
      rewrite H3. cbn. rewrite H4. reflexivity. }
  rewrite (recommend_portfolio_present req _ _ _ _ H1 H2 H3 H4).
  rewrite (raw_recommend_portfolio_present (of_request req) _ _ _ _ _ _
             eq_refl eq_refl H1 H2 H3 H4).
  cbn -[validate_data Raw.validate_data].
  destruct (bool_decide (invocationSource req = "DialogCodeHook"));
    [|reflexivity].
  rewrite raw_validate_data_closed_form, validate_data_closed_form.
  destruct (age_flagged age);
    [|destruct (investmentAmount_flagged amount);
      [|destruct (riskLevel_flagged risk)]]; reflexivity.
Qed.

(** X1.  The entry point returns a response exactly when the event has
    the key "currentIntent" with the name "recommendPortfolio" and a
    slots dictionary that holds the four slot keys, the key
    "invocationSource" and the key "sessionAttributes".  On such an event
    no slot value makes it raise, and the response is of type Close
    exactly when the invocation source is not "DialogCodeHook". *)
Theorem lambda_handler_responds_iff_complete {Context : Type}
    (context : Context) (ev : Raw.event) :
  ((exists r st, Raw.lambda_handler ev context = (Ok r, st)) <->
   (exists current d source session,
      Raw.currentIntent ev = Some current /\
      Raw.name current = Some "recommendPortfolio" /\
      Raw.slots current = Some d /\
      (forall k, In k slot_keys -> is_Some (d !! k)) /\
      Raw.invocationSource ev = Some source /\
      Raw.sessionAttributes ev = Some session)) /\
  (forall r st,
     Raw.lambda_handler ev context = (Ok r, st) ->
     (da_type (dialogAction r) = "Close" <->
      Raw.invocationSource ev <> Some "DialogCodeHook")).
Proof.
  unfold Raw.lambda_handler.
  destruct (raw_dispatch_cases ev)
    as [ (Hc & ->)
       | [ (c & Hc & Hn & ->)
       | [ (c & n & Hc & Hn & Hne & ->)
       | [ (c & Hc & Hn & Hs & ->)
       | [ (c & d & k & Hc & Hn & Hs & Hin & Hk & ->)
       | [ (c & d & (Hc & Hn & Hs & Hall) & Hsrc & ->)
       | [ (c & d & src & (Hc & Hn & Hs & Hall) & Hsrc & Hsa & ->)
       | [ (c & d & k & (Hc & Hn & Hs & Hall) & Hsrc & Hsa & Hin & ->)
       | [ (c & d & src & sa & r & (Hc & Hn & Hs & Hall) & Hsrc & Hsa
            & -> & _ & Htype)
       | (c & d & sa & k & m & (Hc & Hn & Hs & Hall) & Hsrc & Hsa & Hin & ->)
       ]]]]]]]]].
  1-8: split;
    [ split;
      [ intros (r & st & [=])
      | intros (c' & d' & src' & sa' & Hc' & Hn' & Hs' & Hall' & Hsrc' & Hsa');
        exfalso; try congruence
      ]
    | intros r st [=] ].
  - assert (d' = d) as -> by congruence.
    destruct (Hall' k Hin) as [v Hv]. congruence.
  - split.
    + split; [intros _; exists c, d, src, sa; auto 7|eauto].
    + intros r' st' [= <- <-]. rewrite Htype, Hsrc. split; congruence.
  - split.
    + split; [intros _; exists c, d, "DialogCodeHook", sa; auto 7|eauto].
    + intros r' st' [= <- <-]. cbn. rewrite Hsrc.
      split; [discriminate|intros Hne; contradiction].
Qed.

Lemma lambda_handler_responds_iff_complete_witness :
  exists r st, Raw.lambda_handler (of_request request_all_valid) tt = (Ok r, st).
Proof.
  apply (proj2 (proj1 (lambda_handler_responds_iff_complete tt
                         (of_request request_all_valid)))).
  do 4 eexists. repeat split; try reflexivity.
  intros k Hin. simpl in Hin.
  destruct Hin as [<- | [<- | [<- | [<- | []]]]]; eexists; reflexivity.
Defined.



(** X5.  Whatever its outcome, a call of the dispatcher leaves the intent
    name, the invocation source and the session attributes of the event
    alone, neither adds nor removes a key of the slots dictionary, and
    never touches the "firstname" entry.  The event is either unchanged,
    or the turn is a dialog-hook turn and exactly one of the entries
    "age", "investmentAmount", "riskLevel" has been set to null; the
    outcome then is the ElicitSlot response for that slot or, when the
    event has no "sessionAttributes" key, the [KeyError] for it. *)
Theorem dispatch_frame_on_events (ev st : Raw.event) (o : outcome response) :
  Raw.dispatch ev = (o, st) ->
  Raw.name_of st = Raw.name_of ev /\
  Raw.invocationSource st = Raw.invocationSource ev /\
  Raw.sessionAttributes st = Raw.sessionAttributes ev /\
  (Raw.slots_of st = None <-> Raw.slots_of ev = None) /\
  (forall d d' : gmap pyval pyval,
     Raw.slots_of ev = Some d -> Raw.slots_of st = Some d' ->
     dom d' =@{gset pyval} dom d /\
     d' !! PStr "firstname" = d !! PStr "firstname") /\
  (st = ev \/
   exists k d,
     In k [PStr "age"; PStr "investmentAmount"; PStr "riskLevel"] /\
     Raw.invocationSource ev = Some "DialogCodeHook" /\
     Raw.slots_of ev = Some d /\
     d !! k <> None /\
     Raw.slots_of st = Some (<[k := PNone]> d) /\
     st = Raw.update_slot k PNone ev /\
     ((exists session m,
         Raw.sessionAttributes ev = Some session /\
         o = Ok (elicit_slot session "recommendPortfolio"
                   (<[k := PNone]> d) k m)) \/
      (Raw.sessionAttributes ev = None /\
       o = Raise (KeyError (PStr "sessionAttributes"))))).
Proof.
  assert (Hsame : forall o', (o', ev) = (o, st) ->
    Raw.name_of st = Raw.name_of ev /\
    Raw.invocationSource st = Raw.invocationSource ev /\
    Raw.sessionAttributes st = Raw.sessionAttributes ev /\
    (Raw.slots_of st = None <-> Raw.slots_of ev = None) /\
    (forall d d' : gmap pyval pyval,
       Raw.slots_of ev = Some d -> Raw.slots_of st = Some d' ->
       dom d' =@{gset pyval} dom d /\
       d' !! PStr "firstname" = d !! PStr "firstname") /\
    (st = ev \/
     exists k d,
       In k [PStr "age"; PStr "investmentAmount"; PStr "riskLevel"] /\
       Raw.invocationSource ev = Some "DialogCodeHook" /\
       Raw.slots_of ev = Some d /\
       d !! k <> None /\
       Raw.slots_of st = Some (<[k := PNone]> d) /\
       st = Raw.update_slot k PNone ev /\
       ((exists session m,
           Raw.sessionAttributes ev = Some session /\
           o = Ok (elicit_slot session "recommendPortfolio"
                     (<[k := PNone]> d) k m)) \/
        (Raw.sessionAttributes ev = None /\
         o = Raise (KeyError (PStr "sessionAttributes")))))).
  { intros o' [= _ <-]. repeat (split; [reflexivity|]).
    split; [|left; reflexivity].
    intros d d' Hd Hd'. rewrite Hd in Hd'. injection Hd' as <-. auto. }
  assert (Hchanged : forall k current d,
    In k [PStr "age"; PStr "investmentAmount"; PStr "riskLevel"] ->
    Raw.currentIntent ev = Some current ->
    Raw.slots current = Some d ->
    (forall k', In k' slot_keys -> is_Some (d !! k')) ->
    st = Raw.update_slot k PNone ev ->
    Raw.name_of st = Raw.name_of ev /\
    Raw.invocationSource st = Raw.invocationSource ev /\
    Raw.sessionAttributes st = Raw.sessionAttributes ev /\
    (Raw.slots_of st = None <-> Raw.slots_of ev = None) /\
    (forall d0 d' : gmap pyval pyval,
       Raw.slots_of ev = Some d0 -> Raw.slots_of st = Some d' ->
       dom d' =@{gset pyval} dom d0 /\
       d' !! PStr "firstname" = d0 !! PStr "firstname") /\
    Raw.slots_of ev = Some d /\ d !! k <> None /\
    Raw.slots_of st = Some (<[k := PNone]> d)).
  { intros k current d Hin Hc Hs Hall ->.
    destruct (raw_update_slot_slots k PNone ev current d Hc Hs)
      as (Hnew & Hname & Hold).
    assert (Hk : is_Some (d !! k)).
    { apply Hall. simpl in Hin |- *.
      destruct Hin as [<- | [<- | [<- | []]]]; auto 6. }
    split; [exact Hname|]. split; [reflexivity|]. split; [reflexivity|].
    split; [rewrite Hnew, Hold; split; discriminate|].
    split.
    { intros d0 d'. rewrite Hnew, Hold. intros [= <-] [= <-]. split.
      - apply dom_insert_lookup_L, Hk.
      - apply lookup_insert_ne. simpl in Hin.
        destruct Hin as [<- | [<- | [<- | []]]]; discriminate. }
    split; [exact Hold|]. split; [|exact Hnew].
    destruct Hk as [v Hv]. rewrite Hv. discriminate. }
  destruct (raw_dispatch_cases ev)
    as [ (Hc & ->)
       | [ (c & Hc & Hn & ->)
       | [ (c & n & Hc & Hn & Hne & ->)
       | [ (c & Hc & Hn & Hs & ->)
       | [ (c & d & k & Hc & Hn & Hs & Hin & Hk & ->)
       | [ (c & d & (Hc & Hn & Hs & Hall) & Hsrc & ->)
       | [ (c & d & src & (Hc & Hn & Hs & Hall) & Hsrc & Hsa & ->)
       | [ (c & d & k & (Hc & Hn & Hs & Hall) & Hsrc & Hsa & Hin & ->)
       | [ (c & d & src & sa & r & (Hc & Hn & Hs & Hall) & Hsrc & Hsa
            & -> & _ & Htype)
       | (c & d & sa & k & m & (Hc & Hn & Hs & Hall) & Hsrc & Hsa & Hin & ->)
       ]]]]]]]]];
    try apply Hsame.
  - intros [= <- <-].
    destruct (Hchanged k c d Hin Hc Hs Hall eq_refl)
      as (H1 & H2 & H3 & H4 & H5 & H6 & H7 & H8).
    repeat (split; [assumption|]).
    right. exists k, d. repeat (split; [first [assumption | reflexivity]|]).
    right. auto.
  - intros [= <- <-].
    destruct (Hchanged k c d Hin Hc Hs Hall eq_refl)
      as (H1 & H2 & H3 & H4 & H5 & H6 & H7 & H8).
    repeat (split; [assumption|]).
    right. exists k, d. repeat (split; [first [assumption | reflexivity]|]).
    left. exists sa, m. auto.
Qed.

Lemma dispatch_frame_on_events_witness :
  exists d' : gmap pyval pyval,
    Raw.slots_of (snd (Raw.dispatch event_age_70_no_session)) = Some d' /\
    d' !! PStr "firstname" = Some (PStr "Ada").
Proof.
  destruct (dispatch_frame_on_events event_age_70_no_session
              (snd (Raw.dispatch event_age_70_no_session))
              (fst (Raw.dispatch event_age_70_no_session)) eq_refl)
    as (_ & _ & _ & _ & Hslots & _).
  eexists. split; [reflexivity|].
  rewrite (proj2 (Hslots _ _ eq_refl eq_refl)). reflexivity.
Defined.
